(** * vr_pack_for_claude.py: the diff-report aggregator, embedded and verified

    A shallow embedding of [scripts/vr_pack_for_claude.py].  The script runs
    BackstopJS, reads the JSON reports it leaves on disk, groups the failing
    test entries by page label ([collect_diffs]) and writes a Markdown packet
    ([main]).

    Modelling choices, each taken from the source:
    - a value produced by [json.load] is a [json] term: [None], [bool], [int],
      [str], [list] and [dict].  A [dict] is the list of its members in
      insertion order (its keys are pairwise distinct, as in every Python
      dict).  Numbers are integers; non-integer JSON numbers are outside the
      model.  A [string] stands for a Python [str] whose code points are
      below 256;
    - [x.get(k)], [a or b], truthiness, iteration and hashing follow Python:
      [.get] on a non-dict raises [AttributeError], iterating a non-iterable
      or hashing a list or dict raises [TypeError];
    - the file system, the report directory listing, the subprocess and the
      two output streams form a [world]; every function that touches them is
      a function from worlds to a result and a new world.  Opening an output
      file fails when the directory [out] is missing; other failures of a
      write (permissions, a full disk) are not modelled;
    - an exception is a [Raise]; [sys.exit(n)] raises [SystemExit n];
    - [argparse] has run: [main] starts from the parsed [arguments]. *)

From Stdlib Require Import List String Ascii ZArith Bool Arith Lia.
From Stdlib Require Import Permutation Sorted DecimalString.
Import ListNotations.

Set Implicit Arguments.
Set Warnings "-register-all".

(** ** Values read from a report *)

Inductive json : Type :=
| JNull
| JBool (b : bool)
| JNum (n : Z)
| JStr (s : string)
| JArr (items : list json)
| JObj (members : list (string * json)).

(** ** Exceptions and results *)

Inductive exn : Type :=
| AttributeError
| TypeError
| OSError
| SystemExit (code : Z).

Inductive result (A : Type) : Type :=
| Ret (a : A)
| Raise (e : exn).

Arguments Ret {A} a.
Arguments Raise {A} e.

Definition rbind {A B : Type} (r : result A) (k : A -> result B) : result B :=
  match r with
  | Ret a => k a
  | Raise e => Raise e
  end.

Notation "'let*' x ':=' r 'in' k" := (rbind r (fun x => k))
  (at level 10, x name, r at level 100, k at level 200).

(** ** Python operations on values *)

Module Py.

(** [bool(v)]: [None], [False], [0], the empty string, list and dict are
    false. *)
Definition truthy (v : json) : bool :=
  match v with
  | JNull => false
  | JBool b => b
  | JNum n => negb (n =? 0)%Z
  | JStr EmptyString => false
  | JStr (String _ _) => true
  | JArr [] => false
  | JArr (_ :: _) => true
  | JObj [] => false
  | JObj (_ :: _) => true
  end.

(** [a or b] *)
Definition or_ (a b : json) : json := if truthy a then a else b.

Fixpoint assoc (k : string) (m : list (string * json)) : option json :=
  match m with
  | [] => None
  | (k', v) :: m' => if String.eqb k k' then Some v else assoc k m'
  end.

(** [v.get(k, default)]; [v.get(k)] is [get v k JNull]. *)
Definition get (v : json) (k : string) (default : json) : result json :=
  match v with
  | JObj m => Ret (match assoc k m with Some x => x | None => default end)
  | _ => Raise AttributeError
  end.

(** [v == s] for a string literal [s]. *)
Definition eq_str (v : json) (s : string) : bool :=
  match v with
  | JStr t => String.eqb t s
  | _ => false
  end.

(** The values [for x in v] runs through: the elements of a list, the keys
    of a dict, the characters of a string. *)
Definition iter (v : json) : result (list json) :=
  match v with
  | JArr l => Ret l
  | JObj m => Ret (map (fun kv => JStr (fst kv)) m)
  | JStr s => Ret (map (fun c => JStr (String c EmptyString)) (list_ascii_of_string s))
  | _ => Raise TypeError
  end.

(** [hash(v)] raises [TypeError] on a list or a dict. *)
Definition hashable (v : json) : bool :=
  match v with
  | JArr _ | JObj _ => false
  | _ => true
  end.

(** The number a [bool] or [int] key stands for: [True == 1]. *)
Definition as_number (v : json) : option Z :=
  match v with
  | JNum n => Some n
  | JBool b => Some (Z.b2z b)
  | _ => None
  end.

(** Equality of two dict keys. *)
Definition key_eqb (a b : json) : bool :=
  match a, b with
  | JNull, JNull => true
  | JStr s, JStr t => String.eqb s t
  | _, _ =>
    match as_number a, as_number b with
    | Some x, Some y => (x =? y)%Z
    | _, _ => false
    end
  end.

End Py.

(** ** Failed items (lines 98-107) *)

Record failed_item : Type := {
  label : json;
  url : json;
  fileName : json;
  mismatch : json;
  selectors : json
}.

(** One iteration of the loop over tests: [Some item] when the entry is
    appended to [failed_items], [None] when its status is not "fail". *)
Definition failed_item_of (test : json) : result (option failed_item) :=
  let* status := Py.get test "status" JNull in
  if Py.eq_str status "fail" then
    let* pair := Py.get test "pair" (JObj []) in
    let* l := Py.get pair "label" JNull in
    let* u := Py.get pair "url" JNull in
    let* f := Py.get pair "fileName" JNull in
    let* d := Py.get pair "diff" JNull in
    let* m := Py.get (Py.or_ d (JObj [])) "misMatchPercentage" JNull in
    let* s := Py.get pair "selectors" JNull in
    Ret (Some {| label := Py.or_ l (JStr "unknown");
                 url := Py.or_ u (JStr EmptyString);
                 fileName := f;
                 mismatch := m;
                 selectors := s |})
  else Ret None.

Fixpoint collect_failed (tests : list json) : result (list failed_item) :=
  match tests with
  | [] => Ret []
  | test :: rest =>
    let* o := failed_item_of test in
    let* its := collect_failed rest in
    Ret (match o with Some it => it :: its | None => its end)
  end.

(** [for test in data.get("tests", []) or []: ...] *)
Definition items_of_report (data : json) : result (list failed_item) :=
  let* tests := Py.get data "tests" (JArr []) in
  let* l := Py.iter (Py.or_ tests (JArr [])) in
  collect_failed l.

(** ** Grouping by page (lines 109-115) *)

Record page_summary : Type := {
  page : json;
  count : nat;
  samples : list json
}.

(** [by_page]: a dict from label to page summary, in insertion order. *)
Definition pydict : Type := list (json * page_summary).

Module Dict.

Fixpoint lookup (k : json) (d : pydict) : option page_summary :=
  match d with
  | [] => None
  | (k', v) :: d' => if Py.key_eqb k k' then Some v else lookup k d'
  end.

(** [d.setdefault(k, v)] on a hashable key: a present key keeps its entry
    and its place, a new key goes last. *)
Fixpoint setdefault (k : json) (v : page_summary) (d : pydict) : pydict :=
  match d with
  | [] => [(k, v)]
  | (k', v') :: d' =>
    if Py.key_eqb k k' then (k', v') :: d' else (k', v') :: setdefault k v d'
  end.

(** In-place update of the entry [d[k]]. *)
Fixpoint modify (k : json) (f : page_summary -> page_summary) (d : pydict) : pydict :=
  match d with
  | [] => []
  | (k', v') :: d' =>
    if Py.key_eqb k k' then (k', f v') :: d' else (k', v') :: modify k f d'
  end.

Definition keys (d : pydict) : list json := map fst d.
Definition values (d : pydict) : list page_summary := map snd d.

End Dict.

Definition fresh_summary (p : json) : page_summary :=
  {| page := p; count := 0; samples := [] |}.

(** Lines 113-115 on the entry [by_page[p]]. *)
Definition bump (it : failed_item) (ps : page_summary) : page_summary :=
  let ps1 := {| page := page ps; count := count ps + 1; samples := samples ps |} in
  if (List.length (samples ps1) <? 5) && Py.truthy (fileName it) then
    {| page := page ps1; count := count ps1; samples := samples ps1 ++ [fileName it] |}
  else ps1.

(** The body of [for it in failed_items]. *)
Definition add_item (by_page : pydict) (it : failed_item) : result pydict :=
  let p := label it in
  if Py.hashable p then
    Ret (Dict.modify p (bump it) (Dict.setdefault p (fresh_summary p) by_page))
  else Raise TypeError.

Fixpoint group_by_page (failed_items : list failed_item) (by_page : pydict)
  : result pydict :=
  match failed_items with
  | [] => Ret by_page
  | it :: rest =>
    let* by_page' := add_item by_page it in
    group_by_page rest by_page'
  end.

Record aggregate : Type := {
  pages : list page_summary;
  totalFailed : nat
}.

(** ** [json.dumps(obj, indent=2)] *)

Module Json.

Definition quote : string := String (ascii_of_nat 34) EmptyString.
Definition backslash : string := String (ascii_of_nat 92) EmptyString.
Definition newline : string := String (ascii_of_nat 10) EmptyString.

Fixpoint spaces (n : nat) : string :=
  match n with
  | O => EmptyString
  | S k => String (ascii_of_nat 32) (spaces k)
  end.

Definition hex_digit (n : nat) : ascii :=
  if n <? 10 then ascii_of_nat (48 + n) else ascii_of_nat (87 + n).

(** One character under [ensure_ascii]: the short escapes, the character
    itself when printable ASCII, a [\u00xx] escape otherwise. *)
Definition escape_char (c : ascii) : string :=
  let n := nat_of_ascii c in
  if n =? 34 then (backslash ++ quote)%string
  else if n =? 92 then (backslash ++ backslash)%string
  else if n =? 10 then (backslash ++ "n")%string
  else if n =? 13 then (backslash ++ "r")%string
  else if n =? 9 then (backslash ++ "t")%string
  else if n =? 8 then (backslash ++ "b")%string
  else if n =? 12 then (backslash ++ "f")%string
  else if (32 <=? n) && (n <=? 126) then String c EmptyString
  else (backslash ++ "u00"
        ++ String (hex_digit (n / 16)) (String (hex_digit (n mod 16)) EmptyString))%string.

Fixpoint escape (s : string) : string :=
  match s with
  | EmptyString => EmptyString
  | String c s' => (escape_char c ++ escape s')%string
  end.

Definition encode_str (s : string) : string := (quote ++ escape s ++ quote)%string.

Definition encode_int (n : Z) : string := NilZero.string_of_int (Z.to_int n).

Definition newline_indent (level : nat) : string :=
  (newline ++ spaces (2 * level))%string.

(** The text of [v] when it starts at nesting depth [level]. *)
Fixpoint encode (level : nat) (v : json) {struct v} : string :=
  match v with
  | JNull => "null"
  | JBool true => "true"
  | JBool false => "false"
  | JNum n => encode_int n
  | JStr s => encode_str s
  | JArr [] => "[]"
  | JArr (x :: rest) =>
    ("[" ++ newline_indent (S level) ++ encode (S level) x
     ++ (fix more (l : list json) : string :=
           match l with
           | [] => EmptyString
           | y :: l' =>
             ("," ++ newline_indent (S level) ++ encode (S level) y ++ more l')%string
           end) rest
     ++ newline_indent level ++ "]")%string
  | JObj [] => "{}"
  | JObj ((k, x) :: rest) =>
    ("{" ++ newline_indent (S level) ++ encode_str k ++ ": " ++ encode (S level) x
     ++ (fix more (l : list (string * json)) : string :=
           match l with
           | [] => EmptyString
           | (k', y) :: l' =>
             ("," ++ newline_indent (S level) ++ encode_str k' ++ ": "
              ++ encode (S level) y ++ more l')%string
           end) rest
     ++ newline_indent level ++ "}")%string
  end.

Definition dumps (v : json) : string := encode 0 v.

End Json.

(** The dict a page summary and an aggregate are in Python. *)
Definition json_of_page (ps : page_summary) : json :=
  JObj [("page"%string, page ps);
        ("count"%string, JNum (Z.of_nat (count ps)));
        ("samples"%string, JArr (samples ps))].

Definition json_of_aggregate (a : aggregate) : json :=
  JObj [("pages"%string, JArr (map json_of_page (pages a)));
        ("totalFailed"%string, JNum (Z.of_nat (totalFailed a)))].

(** ** The world the script runs in *)

(** What [open(fpath)] followed by [json.load] gives: the parsed document,
    or the message of the exception it raised (an I/O error or malformed
    JSON). *)
Inductive load_result : Type :=
| Loaded (data : json)
| Unreadable (e : string).

(** The first five fields are what the script finds: the paths
    [glob.glob(dir/*.json)] returns for a directory, in the order of the
    operating system; the outcome of loading a path as JSON; whether a path
    exists; the text of a file, if it can be read; the return code of a shell command under a
    value of [SITE_URL].  The script's own writes do not change them (the
    report directory is not the output directory).  The other fields are the
    state the script changes: whether the directory [out] exists, the text
    of the files it has written, the two output streams and the shell
    commands run so far, each latest first. *)
Record world : Type := {
  glob_json : string -> list string;
  load_json : string -> load_result;
  on_disk : string -> bool;
  read_text : string -> option string;
  return_code : string -> option string -> Z;
  out_dir : bool;
  file_text : string -> option string;
  stdout : list string;
  stderr : list string;
  commands : list string
}.

Definition with_out_dir (b : bool) (w : world) : world :=
  {| glob_json := glob_json w; load_json := load_json w; on_disk := on_disk w;
     read_text := read_text w; return_code := return_code w;
     out_dir := b; file_text := file_text w;
     stdout := stdout w; stderr := stderr w; commands := commands w |}.

(** A write replaces the text of one file and nothing else.  What the
    script finds on disk is taken not to depend on what it writes: the reports
    are not read from the directory [out], where a summary written by one call
    would be listed by the next. *)
Definition with_file (path text : string) (w : world) : world :=
  {| glob_json := glob_json w; load_json := load_json w; on_disk := on_disk w;
     read_text := read_text w; return_code := return_code w;
     out_dir := out_dir w;
     file_text := fun p => if String.eqb p path then Some text else file_text w p;
     stdout := stdout w; stderr := stderr w; commands := commands w |}.

Definition with_stdout (line : string) (w : world) : world :=
  {| glob_json := glob_json w; load_json := load_json w; on_disk := on_disk w;
     read_text := read_text w; return_code := return_code w;
     out_dir := out_dir w; file_text := file_text w;
     stdout := line :: stdout w; stderr := stderr w; commands := commands w |}.

Definition with_stderr (line : string) (w : world) : world :=
  {| glob_json := glob_json w; load_json := load_json w; on_disk := on_disk w;
     read_text := read_text w; return_code := return_code w;
     out_dir := out_dir w; file_text := file_text w;
     stdout := stdout w; stderr := line :: stderr w; commands := commands w |}.

Definition with_command (cmd : string) (w : world) : world :=
  {| glob_json := glob_json w; load_json := load_json w; on_disk := on_disk w;
     read_text := read_text w; return_code := return_code w;
     out_dir := out_dir w; file_text := file_text w;
     stdout := stdout w; stderr := stderr w; commands := cmd :: commands w |}.

(** ** Computations: a result and the world after *)

Definition M (A : Type) : Type := world -> result A * world.

Definition ret {A : Type} (a : A) : M A := fun w => (Ret a, w).

Definition raise {A : Type} (e : exn) : M A := fun w => (Raise e, w).

Definition bind {A B : Type} (m : M A) (k : A -> M B) : M B :=
  fun w =>
    match m w with
    | (Ret a, w') => k a w'
    | (Raise e, w') => (Raise e, w')
    end.

Definition lift {A : Type} (r : result A) : M A := fun w => (r, w).

Notation "x <- m ;; k" := (bind m (fun x => k))
  (at level 61, m at next level, right associativity).
Notation "m ;; k" := (bind m (fun _ => k))
  (at level 61, right associativity).

Definition print (line : string) : M unit := fun w => (Ret tt, with_stdout line w).

Definition eprint (line : string) : M unit := fun w => (Ret tt, with_stderr line w).

(** [with open(path, "w") as f: f.write(text)]: the file is replaced; the
    open fails when the directory [out], where both output files live, does
    not exist. *)
Definition write_file (path text : string) : M unit :=
  fun w => if out_dir w then (Ret tt, with_file path text w) else (Raise OSError, w).

(** [pathlib.Path("out").mkdir(exist_ok=True)]; it is taken to succeed. *)
Definition mkdir_out : M unit := fun w => (Ret tt, with_out_dir true w).

Definition str_of_int (n : Z) : string := Json.encode_int n.

(** ** Constants *)

Definition DEFAULT_REPORT_DIR : string := "backstop/backstop_data/json_report".
Definition DEFAULT_HTML_REPORT_DIR : string := "backstop/backstop_data/html_report".
Definition DIFF_SUMMARY_PATH : string := "out/diff-summary.json".
Definition PACKET_PATH : string := "out/ai-packet.md".

(** ** [sorted] on a list of strings *)

Fixpoint insert (x : string) (l : list string) : list string :=
  match l with
  | [] => [x]
  | y :: l' => if String.leb x y then x :: l else y :: insert x l'
  end.

Definition sorted (l : list string) : list string := fold_right insert [] l.

(** ** [collect_diffs] (lines 84-123) *)

(** The loop of lines 90-107, [failed_items] being the list built so far. *)
Fixpoint load_reports (files : list string) (failed_items : list failed_item)
  : M (list failed_item) :=
  match files with
  | [] => ret failed_items
  | fpath :: rest =>
    fun w =>
      match load_json w fpath with
      | Unreadable e =>
        (eprint ("Failed to read report " ++ fpath ++ ": " ++ e)%string ;;
         load_reports rest failed_items) w
      | Loaded data =>
        (its <- lift (items_of_report data) ;;
         load_reports rest (failed_items ++ its)) w
      end
  end.

Definition empty_aggregate : aggregate := {| pages := []; totalFailed := 0 |}.

Definition collect_diffs (report_dir : string) : M aggregate :=
  fun w =>
    let files := sorted (glob_json w report_dir) in
    match files with
    | [] => ret empty_aggregate w
    | _ :: _ =>
      (failed_items <- load_reports files [] ;;
       by_page <- lift (group_by_page failed_items []) ;;
       let summary := {| pages := Dict.values by_page;
                         totalFailed := List.length failed_items |} in
       write_file DIFF_SUMMARY_PATH (Json.dumps (json_of_aggregate summary)) ;;
       ret summary) w
    end.

(** ** The rest of the script *)

(** [sh] (lines 69-74) *)
Definition sh (cmd : string) (env : option string) (allow_fail : bool) : M Z :=
  print ("+ " ++ cmd)%string ;;
  code <- (fun w => (Ret (return_code w cmd env), with_command cmd w)) ;;
  (if negb (code =? 0)%Z && negb allow_fail
   then eprint ("Command failed with code " ++ str_of_int code)%string
   else ret tt) ;;
  ret code.

(** [run_backstop] (lines 76-82) *)
Definition run_backstop (site_url backstop_config : string) : M unit :=
  code <- sh ("cd backstop  && backstop test --config=" ++ backstop_config)%string
             (Some site_url) true ;;
  if negb ((code =? 0)%Z || (code =? 1)%Z)
  then eprint ("Backstop returned unexpected exit code: " ++ str_of_int code)%string
  else ret tt.

(** [os.path.basename] *)
Fixpoint has_slash (p : string) : bool :=
  match p with
  | EmptyString => false
  | String c r => Ascii.eqb c "/" || has_slash r
  end.

Fixpoint basename (p : string) : string :=
  match p with
  | EmptyString => EmptyString
  | String c r =>
    if has_slash r then basename r
    else if Ascii.eqb c "/" then r else p
  end.

(** [read_backstop_full_json] (lines 144-159): one entry per report, with
    its content or the message of the error. *)
Definition read_backstop_full_json (report_dir : string)
  : M (list (string * load_result)) :=
  fun w =>
    (Ret (map (fun fpath => (basename fpath, load_json w fpath))
              (sorted (glob_json w report_dir))), w).

Record arguments : Type := {
  task : string;
  site_url : string;
  backstop_config : string;
  include_full_json : bool;
  open_report : bool
}.

Section Script.

(** The regular expressions of [parse_task_markdown] and the string
    formatting of [build_packet_md] (lines 161-208) are pure functions of
    their arguments and are kept abstract. *)
Variable task_info : Type.
Variable task_fields : string -> task_info.
Variable build_packet_md :
  string -> task_info -> aggregate -> string -> bool ->
  option (list (string * load_result)) -> string.

(** [parse_task_markdown] (lines 125-142) *)
Definition parse_task_markdown (path : string) : M task_info :=
  text <- (fun w => (match read_text w path with
                     | Some text => Ret text
                     | None => Raise OSError
                     end, w)) ;;
  ret (task_fields text).

(** Lines 224-227. *)
Definition validate_task_file (task_path : string) : M unit :=
  fun w =>
    if negb (on_disk w task_path) then
      (eprint ("Task file not found: " ++ task_path)%string ;;
       raise (SystemExit 2)) w
    else ret tt w.

(** Lines 236-238: the call of [collect_diffs] and the write that follows
    it. *)
Definition collect_and_write : M aggregate :=
  diff_summary <- collect_diffs DEFAULT_REPORT_DIR ;;
  write_file DIFF_SUMMARY_PATH (Json.dumps (json_of_aggregate diff_summary)) ;;
  ret diff_summary.

(** Lines 229-259. *)
Definition main_after_validation (args : arguments) : M unit :=
  info <- parse_task_markdown (task args) ;;
  run_backstop (site_url args) (backstop_config args) ;;
  diff_summary <- collect_and_write ;;
  full_json_obj <- (if include_full_json args
                    then (l <- read_backstop_full_json DEFAULT_REPORT_DIR ;; ret (Some l))
                    else ret None) ;;
  let packet := build_packet_md (task args) info diff_summary DEFAULT_HTML_REPORT_DIR
                                (include_full_json args) full_json_obj in
  write_file PACKET_PATH packet ;;
  print ("Wrote: " ++ PACKET_PATH)%string ;;
  if open_report args
  then (sh "npx backstop openReport" None true ;; ret tt)
  else ret tt.

(** [main] (lines 210-259), after [argparse] has produced [args]. *)
Definition main (args : arguments) : M unit :=
  mkdir_out ;;
  validate_task_file (task args) ;;
  main_after_validation args.

End Script.

(** The exit status of the process: 0 on a normal return, the code of
    [sys.exit], 1 on an uncaught exception. *)
Definition exit_status (r : result unit) : Z :=
  match r with
  | Ret _ => 0
  | Raise (SystemExit n) => n
  | Raise _ => 1
  end.

(** ** Vocabulary of the properties *)

Definition sum_counts (l : list page_summary) : nat := list_sum (map count l).

(** [k] is equal, as a dict key, to one of [ks]. *)
Definition seen (k : json) (ks : list json) : bool := existsb (Py.key_eqb k) ks.

(** The keys of [l] in the order of their first occurrence: the head, then
    the first occurrences of the tail that differ from the head. *)
Fixpoint first_occurrences (l : list json) : list json :=
  match l with
  | [] => []
  | x :: r => x :: filter (fun y => negb (Py.key_eqb x y)) (first_occurrences r)
  end.

(** The failed items that belong to the page [k]. *)
Definition labelled (k : json) (items : list failed_item) : list failed_item :=
  filter (fun it => Py.key_eqb (label it) k) items.

(** The failed items that carry a non-empty file name. *)
Definition named (items : list failed_item) : list failed_item :=
  filter (fun it => Py.truthy (fileName it)) items.

(** The summary of a page after the items [its] of that page went through
    lines 113-115, one after the other. *)
Definition apply_items (its : list failed_item) (ps : page_summary) : page_summary :=
  fold_left (fun ps it => bump it ps) its ps.

(** The failed items of the test entries [tests], in the order of the
    entries. *)
Definition items_of_tests (tests : list json) : list failed_item :=
  flat_map (fun test => match failed_item_of test with
                        | Ret (Some it) => [it]
                        | _ => []
                        end) tests.

(** The test entries of a report: the members of its "tests" list. *)
Definition report_tests (data : json) : list json :=
  match data with
  | JObj m =>
    match Py.assoc "tests" m with
    | Some (JArr l) => l
    | _ => []
    end
  | _ => []
  end.

(** The test entries of a report file: none when it cannot be read. *)
Definition file_tests (w : world) (fpath : string) : list json :=
  match load_json w fpath with
  | Loaded data => report_tests data
  | Unreadable _ => []
  end.

(** All test entries of a report directory: file after file in sorted
    order, each file's entries in their order. *)
Definition all_tests (w : world) (report_dir : string) : list json :=
  flat_map (file_tests w) (sorted (glob_json w report_dir)).

(** All failed items of a report directory, in that order. *)
Definition failed_items_in (w : world) (report_dir : string) : list failed_item :=
  items_of_tests (all_tests w report_dir).

(** The summary the specification gives the page [k]: the number of its
    failed items and the first five of their non-empty file names. *)
Definition page_summary_of (items : list failed_item) (k : json) : page_summary :=
  {| page := k;
     count := List.length (labelled k items);
     samples := firstn 5 (map fileName (named (labelled k items))) |}.

(** The loop of lines 90-107 without its warnings. *)
Fixpoint loaded_items (w : world) (files : list string) : result (list failed_item) :=
  match files with
  | [] => Ret []
  | fpath :: rest =>
    match load_json w fpath with
    | Unreadable _ => loaded_items w rest
    | Loaded data =>
      let* its := items_of_report data in
      let* more := loaded_items w rest in
      Ret (its ++ more)
    end
  end.

(** The warnings of the loop of lines 90-107, latest first. *)
Fixpoint warnings (w : world) (files : list string) (log : list string) : list string :=
  match files with
  | [] => log
  | fpath :: rest =>
    match load_json w fpath with
    | Unreadable e =>
      warnings w rest (("Failed to read report " ++ fpath ++ ": " ++ e)%string :: log)
    | Loaded _ => warnings w rest log
    end
  end.

(** The same world with one path gone from every directory listing. *)
Definition without_file (fpath : string) (w : world) : world :=
  {| glob_json := fun d => filter (fun p => negb (String.eqb p fpath)) (glob_json w d);
     load_json := load_json w; on_disk := on_disk w;
     read_text := read_text w; return_code := return_code w;
     out_dir := out_dir w; file_text := file_text w;
     stdout := stdout w; stderr := stderr w; commands := commands w |}.

(** *** The shape of a report (section 6 of the specification) *)

(** A test entry the loop accepts: an object; when its status is "fail",
    its "pair", if any, is an object whose "diff" is absent, false or an
    object and whose label can be a dict key. *)
Definition entry_shaped (test : json) : bool :=
  match test with
  | JObj m =>
    if Py.eq_str (match Py.assoc "status" m with Some s => s | None => JNull end) "fail"
    then
      match Py.assoc "pair" m with
      | None => true
      | Some (JObj pm) =>
        match Py.assoc "diff" pm with
        | None => true
        | Some d => negb (Py.truthy d) || match d with JObj _ => true | _ => false end
        end
        && match Py.assoc "label" pm with
           | None => true
           | Some l => negb (Py.truthy l) || Py.hashable l
           end
      | Some _ => false
      end
    else true
  | _ => false
  end.

(** A report the loop accepts: an object whose "tests" is absent, false or
    a list of accepted entries. *)
Definition report_shaped (data : json) : bool :=
  match data with
  | JObj m =>
    match Py.assoc "tests" m with
    | None => true
    | Some (JArr l) => forallb entry_shaped l
    | Some t => negb (Py.truthy t)
    end
  | _ => false
  end.

(** Every report of the directory that can be read is shaped. *)
Definition reports_shaped (w : world) (report_dir : string) : Prop :=
  forall fpath data,
    In fpath (glob_json w report_dir) ->
    load_json w fpath = Loaded data ->
    report_shaped data = true.

(** A test entry that is an object and whose status is not "fail". *)
Definition entry_passes (test : json) : bool :=
  match test with
  | JObj m =>
    negb (Py.eq_str (match Py.assoc "status" m with Some s => s | None => JNull end) "fail")
  | _ => false
  end.

(** A report with no failing test entry. *)
Definition report_passes (data : json) : bool :=
  match data with
  | JObj m =>
    match Py.assoc "tests" m with
    | None => true
    | Some (JArr l) => forallb entry_passes l
    | Some t => negb (Py.truthy t)
    end
  | _ => false
  end.

(** An exception other than [SystemExit]. *)
Definition ordinary (e : exn) : bool :=
  match e with
  | SystemExit _ => false
  | _ => true
  end.

(** *** Auxiliary notions of the proofs *)

(** No two keys are equal. *)
Fixpoint distinct (ks : list json) : Prop :=
  match ks with
  | [] => True
  | k :: r => seen k r = false /\ distinct r
  end.

(** What lines 113-115 do to one entry of the dict. *)
Definition upd (it : failed_item) (kv : json * page_summary) : json * page_summary :=
  if Py.key_eqb (label it) (fst kv) then (fst kv, bump it (snd kv)) else kv.

Definition old_entry (items : list failed_item) (kv : json * page_summary)
  : json * page_summary :=
  (fst kv, apply_items (labelled (fst kv) items) (snd kv)).

Definition new_entry (items : list failed_item) (k : json) : json * page_summary :=
  (k, apply_items (labelled k items) (fresh_summary k)).

(** The world with its error stream replaced. *)
Definition logged (log : list string) (w : world) : world :=
  {| glob_json := glob_json w; load_json := load_json w; on_disk := on_disk w;
     read_text := read_text w; return_code := return_code w;
     out_dir := out_dir w; file_text := file_text w;
     stdout := stdout w; stderr := log; commands := commands w |}.

(** The aggregate of lines 117-120. *)
Definition summary_of (failed_items : list failed_item) (by_page : pydict) : aggregate :=
  {| pages := Dict.values by_page; totalFailed := List.length failed_items |}.

(** The order of [sorted]: code point by code point. *)
Definition le_str (a b : string) : Prop := String.leb a b = true.


(** What the loop appends for a failing entry without "pair". *)
Definition unknown_item : failed_item :=
  {| label := JStr "unknown"; url := JStr EmptyString; fileName := JNull;
     mismatch := JNull; selectors := JNull |}.

(** The entry of a page in the dict, a fresh one when the page is new. *)
Definition entry_of (k : json) (by_page : pydict) : page_summary :=
  match Dict.lookup k by_page with
  | Some ps => ps
  | None => fresh_summary k
  end.

(** A result that is not a [SystemExit]. *)
Definition ordinary_result {A : Type} (r : result A) : Prop :=
  match r with
  | Ret _ => True
  | Raise e => ordinary e = true
  end.

(** A computation that never raises [SystemExit]. *)
Definition no_exit {A : Type} (m : M A) : Prop :=
  forall w, ordinary_result (fst (m w)).

(** A world with no report, an existing directory [out] and a summary left
    by an earlier run. *)
Definition stale_world : world :=
  {| glob_json := fun _ => [];
     load_json := fun _ => Unreadable "No such file or directory";
     on_disk := fun _ => false;
     read_text := fun _ => None;
     return_code := fun _ _ => 0%Z;
     out_dir := true;
     file_text := fun p => if String.eqb p DIFF_SUMMARY_PATH
                           then Some "stale"%string else None;
     stdout := []; stderr := []; commands := [] |}.

(** ** Reports and worlds of the scenarios (section 8 of the specification) *)

Definition failing_test (page_label file : string) : json :=
  JObj [("status"%string, JStr "fail");
        ("pair"%string,
         JObj [("label"%string, JStr page_label);
               ("url"%string, JStr "http://site.local/");
               ("fileName"%string, JStr file);
               ("diff"%string, JObj [("misMatchPercentage"%string, JStr "1.20")])])].

Definition passing_test (page_label : string) : json :=
  JObj [("status"%string, JStr "pass");
        ("pair"%string, JObj [("label"%string, JStr page_label)])].

Definition report (tests : list json) : load_result :=
  Loaded (JObj [("testSuite"%string, JStr "BackstopJS"); ("tests"%string, JArr tests)]).

(** A world whose directory [reports] holds the given files, in the given
    order, whose directory [out] exists and whose only other file is
    [task.md]. *)
Definition disk (reports : list (string * load_result)) : world :=
  {| glob_json := fun d => if String.eqb d "reports" then map fst reports else [];
     load_json := fun p =>
       match find (fun kv => String.eqb (fst kv) p) reports with
       | Some kv => snd kv
       | None => Unreadable "No such file or directory"
       end;
     on_disk := fun p => String.eqb p "task.md";
     read_text := fun p => if String.eqb p "task.md" then Some "Title: demo"%string else None;
     return_code := fun _ _ => 1%Z;
     out_dir := true;
     file_text := fun _ => None;
     stdout := []; stderr := []; commands := [] |}.

Definition scenario_1 : world :=
  disk [("reports/a.json"%string,
         report [failing_test "home" "home_0.png"; failing_test "home" "home_1.png"])].

Definition scenario_2 : world :=
  disk [("reports/a.json"%string,
         report [failing_test "pricing" "p1.png"; failing_test "pricing" "p2.png";
                 failing_test "pricing" "p3.png"; failing_test "pricing" "p4.png";
                 failing_test "pricing" "p5.png"; failing_test "pricing" "p6.png";
                 failing_test "pricing" "p7.png"])].

(** Two reports listed in reverse order, and a third that is not JSON. *)
Definition scenario_3 : world :=
  disk [("reports/b.json"%string, report [failing_test "pricing" "pricing_0.png"]);
        ("reports/c.json"%string, Unreadable "Expecting value: line 1 column 1 (char 0)");
        ("reports/a.json"%string, report [passing_test "about";
                                          failing_test "home" "home_0.png"])].

Definition scenario_4 : world :=
  disk [("reports/a.json"%string, report [JObj [("status"%string, JStr "fail")]])].

Definition scenario_5 : world := disk [].

(** Reports in which every test passes, next to one that is not JSON and
    one without tests. *)
Definition all_passing : world :=
  disk [("reports/a.json"%string, report [passing_test "home"; passing_test "pricing"]);
        ("reports/b.json"%string, Unreadable "Expecting value: line 1 column 1 (char 0)");
        ("reports/c.json"%string, Loaded (JObj [("tests"%string, JNull)]))].

Definition home_summary : page_summary :=
  {| page := JStr "home"; count := 2;
     samples := [JStr "home_0.png"; JStr "home_1.png"] |}.

Definition scenario_1_aggregate : aggregate :=
  {| pages := [home_summary]; totalFailed := 2 |}.

Definition scenario_3_aggregate : aggregate :=
  {| pages := [{| page := JStr "home"; count := 1; samples := [JStr "home_0.png"] |};
               {| page := JStr "pricing"; count := 1; samples := [JStr "pricing_0.png"] |}];
     totalFailed := 2 |}.

Definition demo_arguments (task_path : string) : arguments :=
  {| task := task_path; site_url := "http://site.local";
     backstop_config := "backstop.json";
     include_full_json := false; open_report := false |}.

(** A failing entry without "pair". *)
Definition pairless_failure : list (string * json) :=
  [("status"%string, JStr "fail"); ("requireSameDimensions"%string, JBool true)].

(** A failing entry whose pair has a file name and no label. *)
Definition unlabelled_failure (file : string) : json :=
  JObj [("status"%string, JStr "fail");
        ("pair"%string, JObj [("fileName"%string, JStr file)])].

(** Scenario 4 among other failures: the entry without "pair" is the third
    of four tests of the first report, after a failure of the page "unknown"
    that has a file name. *)
Definition scenario_4_among_others : world :=
  disk [("reports/b.json"%string, report [failing_test "pricing" "pricing_0.png"]);
        ("reports/a.json"%string,
         report [failing_test "home" "home_0.png"; unlabelled_failure "u.png";
                 JObj pairless_failure; failing_test "home" "home_1.png"])].

Definition scenario_4_among_others_aggregate : aggregate :=
  {| pages := [{| page := JStr "home"; count := 2;
                  samples := [JStr "home_0.png"; JStr "home_1.png"] |};
               {| page := JStr "unknown"; count := 2; samples := [JStr "u.png"] |};
               {| page := JStr "pricing"; count := 1;
                  samples := [JStr "pricing_0.png"] |}];
     totalFailed := 5 |}.


(** ** Vocabulary of the further properties *)

(** The line of line 95 for a report that cannot be read. *)
Definition warning_line (fpath e : string) : string :=
  ("Failed to read report " ++ fpath ++ ": " ++ e)%string.

(** The warnings for the files that cannot be read, in the order of the
    files. *)
Definition unreadable_warnings (w : world) (files : list string) : list string :=
  flat_map (fun fpath => match load_json w fpath with
                         | Unreadable e => [warning_line fpath e]
                         | Loaded _ => []
                         end) files.

(** What the script finds is the same in both worlds. *)
Definition same_inputs (w w' : world) : Prop :=
  glob_json w' = glob_json w /\ load_json w' = load_json w /\
  on_disk w' = on_disk w /\ read_text w' = read_text w /\
  return_code w' = return_code w.

(** Every file other than the summary has the same text in both worlds. *)
Definition same_files_but_summary (w w' : world) : Prop :=
  forall p, p <> DIFF_SUMMARY_PATH -> file_text w' p = file_text w p.

(** The second world has the lines of the first on a stream, below new
    lines that all satisfy [P]. *)
Definition grows_by (P : string -> Prop) (old new : list string) : Prop :=
  exists added, new = added ++ old /\ Forall P added.

(** A computation whose final world is related to its initial world by
    [R], whether it returns or raises. *)
Definition keeps {A : Type} (R : world -> world -> Prop) (m : M A) : Prop :=
  forall w, R w (snd (m w)).

(** The shell command of [run_backstop]. *)
Definition backstop_command (backstop_config : string) : string :=
  ("cd backstop  && backstop test --config=" ++ backstop_config)%string.

(** A line with one of the three messages of lines 82, 95 and 226. *)
Definition script_error_line (line : string) : Prop :=
  String.prefix "Failed to read report " line = true \/
  String.prefix "Backstop returned unexpected exit code: " line = true \/
  String.prefix "Task file not found: " line = true.

(** The world after [run_backstop]. *)
Definition after_backstop (site_url backstop_config : string) (w : world) : world :=
  let cmd := backstop_command backstop_config in
  let code := return_code w cmd (Some site_url) in
  let w1 := with_command cmd (with_stdout ("+ " ++ cmd)%string w) in
  if negb ((code =? 0)%Z || (code =? 1)%Z)
  then with_stderr ("Backstop returned unexpected exit code: " ++ str_of_int code)%string w1
  else w1.

(** The aggregate of a list of failed items. *)
Definition aggregate_of (items : list failed_item) : aggregate :=
  {| pages := map (page_summary_of items) (first_occurrences (map label items));
     totalFailed := List.length items |}.

(** The reports as [read_backstop_full_json] lists them. *)
Definition full_json_of (w : world) (report_dir : string) : list (string * load_result) :=
  map (fun fpath => (basename fpath, load_json w fpath))
      (sorted (glob_json w report_dir)).

(** One step of the script: the directory [out], once there, stays, and the
    error stream grows by lines of the three messages. *)
Definition script_step (w w' : world) : Prop :=
  (out_dir w = true -> out_dir w' = true) /\
  grows_by script_error_line (stderr w) (stderr w').

(** The world [main] ends in after a run without error: the world after
    [collect_diffs], then the two files and the last lines. *)
Definition after_main
  (packet : string) (agg : aggregate) (open_report : bool) (w2 : world) : world :=
  let w5 := with_stdout ("Wrote: " ++ PACKET_PATH)%string
              (with_file PACKET_PATH packet
                 (with_file DIFF_SUMMARY_PATH (Json.dumps (json_of_aggregate agg)) w2)) in
  if open_report
  then with_command "npx backstop openReport"
         (with_stdout "+ npx backstop openReport" w5)
  else w5.

(** The packet [main] builds from the task text and the reports. *)
Definition packet_of
  (task_info : Type) (task_fields : string -> task_info)
  (build_packet_md : string -> task_info -> aggregate -> string -> bool ->
                     option (list (string * load_result)) -> string)
  (args : arguments) (text : string) (w : world) : string :=
  build_packet_md (task args) (task_fields text)
    (aggregate_of (failed_items_in w DEFAULT_REPORT_DIR)) DEFAULT_HTML_REPORT_DIR
    (include_full_json args)
    (if include_full_json args
     then Some (full_json_of w DEFAULT_REPORT_DIR) else None).

(** ** The lists of [parse_task_markdown] (lines 131-134) *)

(** The line of labels and the line of expected pages come from two regular
    expressions, which stay abstract; what lines 132 and 134 make of these
    lines is modelled here, with the string methods they call. *)
Module Str.

(** [c.isspace()], which is also the class [\s] of [re], on the code
    points below 256: tab to carriage return, the four separators 28 to 31,
    the space, NEL and the no-break space. *)
Definition isspace (c : ascii) : bool :=
  let n := nat_of_ascii c in
  ((9 <=? n) && (n <=? 13)) || ((28 <=? n) && (n <=? 32))
  || (n =? 133) || (n =? 160).

Fixpoint lstrip (s : string) : string :=
  match s with
  | EmptyString => EmptyString
  | String c r => if isspace c then lstrip r else s
  end.

Fixpoint rstrip (s : string) : string :=
  match s with
  | EmptyString => EmptyString
  | String c r =>
    match rstrip r with
    | EmptyString => if isspace c then EmptyString else String c EmptyString
    | String c' r' => String c (String c' r')
    end
  end.

(** [s.strip()] *)
Definition strip (s : string) : string := rstrip (lstrip s).

(** [s.split(sep)] for a separator of one character. *)
Fixpoint split (sep : ascii) (s : string) : list string :=
  match s with
  | EmptyString => [EmptyString]
  | String c r =>
    if Ascii.eqb c sep then EmptyString :: split sep r
    else
      match split sep r with
      | p :: ps => String c p :: ps
      | [] => [String c EmptyString]
      end
  end.

(** A separator of the pattern [[,\s]+]. *)
Definition is_sep (c : ascii) : bool := Ascii.eqb c "," || isspace c.

(** [re.split(r"[,\s]+", s)]: the pieces between the maximal runs of
    separators; [in_run] tells that the character before was a separator. *)
Fixpoint re_split_from (in_run : bool) (s : string) : list string :=
  match s with
  | EmptyString => [EmptyString]
  | String c r =>
    if is_sep c then
      if in_run then re_split_from true r else EmptyString :: re_split_from true r
    else
      match re_split_from false r with
      | p :: ps => String c p :: ps
      | [] => [String c EmptyString]
      end
  end.

Definition re_split (s : string) : list string := re_split_from false s.

(** [bool(s)] *)
Definition nonempty (s : string) : bool :=
  match s with
  | EmptyString => false
  | String _ _ => true
  end.

(** Every character of the string satisfies [p]. *)
Fixpoint all_chars (p : ascii -> bool) (s : string) : bool :=
  match s with
  | EmptyString => true
  | String c r => p c && all_chars p r
  end.

(** [sep.join(l)] *)
Fixpoint join (sep : string) (l : list string) : string :=
  match l with
  | [] => EmptyString
  | [x] => x
  | x :: r => (x ++ sep ++ join sep r)%string
  end.

End Str.

(** Line 132. *)
Definition labels_of_line (labels_line : string) : list string :=
  map Str.strip
      (filter (fun s => Str.nonempty (Str.strip s)) (Str.split "," labels_line)).

(** Line 134. *)
Definition expected_pages_of_line (expected_line : string) : list string :=
  map Str.strip
      (filter (fun p => Str.nonempty (Str.strip p)) (Str.re_split expected_line)).

(** A label as line 132 gives it: not empty, no comma, no white space at
    either end. *)
Definition clean_label (l : string) : Prop :=
  l <> EmptyString /\ Str.strip l = l /\
  Str.all_chars (fun c => negb (Ascii.eqb c ",")) l = true.

(** ** More worlds for the examples *)

(** Scenario 3 with its files listed in another order. *)
Definition scenario_3_relisted : world :=
  disk [("reports/a.json"%string, report [passing_test "about";
                                          failing_test "home" "home_0.png"]);
        ("reports/b.json"%string, report [failing_test "pricing" "pricing_0.png"]);
        ("reports/c.json"%string, Unreadable "Expecting value: line 1 column 1 (char 0)")].

(** A report that is valid JSON but a list, not an object. *)
Definition list_report : world :=
  disk [("reports/a.json"%string, Loaded (JArr [JStr "tests"]))].

(** A world whose reports are where [main] looks for them, whose directory
    [out] does not exist yet and where BackstopJS ends with code 1. *)
Definition site (reports : list (string * load_result)) (task_text : option string)
  : world :=
  {| glob_json := fun d => if String.eqb d DEFAULT_REPORT_DIR then map fst reports else [];
     load_json := fun p =>
       match find (fun kv => String.eqb (fst kv) p) reports with
       | Some kv => snd kv
       | None => Unreadable "No such file or directory"
       end;
     on_disk := fun p => String.eqb p "task.md";
     read_text := fun p => if String.eqb p "task.md" then task_text else None;
     return_code := fun _ _ => 1%Z;
     out_dir := false;
     file_text := fun _ => None;
     stdout := []; stderr := []; commands := [] |}.

Definition site_with_failure : world :=
  site [("backstop/backstop_data/json_report/a.json"%string,
         report [failing_test "home" "home_0.png"])]
       (Some "Title: demo"%string).

Definition site_with_list_report : world :=
  site [("backstop/backstop_data/json_report/a.json"%string, Loaded (JArr []))]
       (Some "Title: demo"%string).

Definition site_with_unreadable_task : world := site [] None.

Definition one_home_failure : aggregate :=
  {| pages := [{| page := JStr "home"; count := 1; samples := [JStr "home_0.png"] |}];
     totalFailed := 1 |}.

(** * Properties *)

Unset Implicit Arguments.

(** ** Dict keys *)

Lemma key_eqb_sym (a b : json) : Py.key_eqb a b = Py.key_eqb b a.
Proof.
  destruct a, b; simpl; try reflexivity;
    try apply Z.eqb_sym; try apply String.eqb_sym.
Qed.

Lemma key_eqb_refl (a : json) : Py.hashable a = true -> Py.key_eqb a a = true.
Proof.
  destruct a; simpl; intros H; try discriminate; try reflexivity.
  - apply Z.eqb_refl.
  - apply Z.eqb_refl.
  - apply String.eqb_refl.
Qed.

Lemma key_eqb_trans (a b c : json) :
  Py.key_eqb a b = true -> Py.key_eqb b c = true -> Py.key_eqb a c = true.
Proof.
  destruct a, b, c; simpl; intros H1 H2; try discriminate; try reflexivity;
    try (apply Z.eqb_eq in H1; apply Z.eqb_eq in H2; apply Z.eqb_eq; congruence).
  apply String.eqb_eq in H1; apply String.eqb_eq in H2; apply String.eqb_eq; congruence.
Qed.

Lemma key_eqb_hashable (a b : json) :
  Py.key_eqb a b = true -> Py.hashable a = true /\ Py.hashable b = true.
Proof. destruct a, b; simpl; intros H; try discriminate; split; reflexivity. Qed.

Lemma key_eqb_false_l (a b c : json) :
  Py.key_eqb a b = true -> Py.key_eqb a c = false -> Py.key_eqb b c = false.
Proof.
  intros Hab Hac. destruct (Py.key_eqb b c) eqn:Hbc; [|reflexivity].
  rewrite (key_eqb_trans _ _ _ Hab Hbc) in Hac. discriminate.
Qed.

Lemma seen_app (k : json) (l1 l2 : list json) :
  seen k (l1 ++ l2) = seen k l1 || seen k l2.
Proof. apply existsb_app. Qed.

Lemma seen_eqv (a b : json) (ks : list json) :
  Py.key_eqb a b = true -> seen a ks = seen b ks.
Proof.
  intros Hab. induction ks as [|k ks IH]; simpl; [reflexivity|].
  rewrite IH. f_equal.
  destruct (Py.key_eqb a k) eqn:Hak.
  - symmetry. apply key_eqb_trans with a; [rewrite key_eqb_sym|]; assumption.
  - symmetry. apply key_eqb_false_l with a; assumption.
Qed.

(** ** The dict [by_page] *)

Lemma setdefault_seen (k : json) (v : page_summary) (d : pydict) :
  seen k (Dict.keys d) = true -> Dict.setdefault k v d = d.
Proof.
  induction d as [|[k' v'] d IH]; simpl; [discriminate|].
  destruct (Py.key_eqb k k'); simpl; intros H; [reflexivity|].
  rewrite IH by assumption. reflexivity.
Qed.

Lemma setdefault_unseen (k : json) (v : page_summary) (d : pydict) :
  seen k (Dict.keys d) = false -> Dict.setdefault k v d = d ++ [(k, v)].
Proof.
  induction d as [|[k' v'] d IH]; simpl; [reflexivity|].
  destruct (Py.key_eqb k k'); simpl; intros H; [discriminate|].
  rewrite IH by assumption. reflexivity.
Qed.

Lemma modify_unseen (k : json) (f : page_summary -> page_summary) (d : pydict) :
  seen k (Dict.keys d) = false -> Dict.modify k f d = d.
Proof.
  induction d as [|[k' v'] d IH]; simpl; [reflexivity|].
  destruct (Py.key_eqb k k'); simpl; intros H; [discriminate|].
  rewrite IH by assumption. reflexivity.
Qed.

Lemma modify_app_unseen (k : json) (f : page_summary -> page_summary) (d d' : pydict) :
  seen k (Dict.keys d) = false -> Dict.modify k f (d ++ d') = d ++ Dict.modify k f d'.
Proof.
  induction d as [|[k' v'] d IH]; simpl; [reflexivity|].
  destruct (Py.key_eqb k k'); simpl; intros H; [discriminate|].
  rewrite IH by assumption. reflexivity.
Qed.

Lemma map_upd_unseen (it : failed_item) (d : pydict) :
  seen (label it) (Dict.keys d) = false -> map (upd it) d = d.
Proof.
  induction d as [|[k' v'] d IH]; simpl; [reflexivity|].
  unfold upd at 1; simpl.
  destruct (Py.key_eqb (label it) k'); simpl; intros H; [discriminate|].
  rewrite IH by assumption. reflexivity.
Qed.

Lemma modify_distinct (it : failed_item) (d : pydict) :
  distinct (Dict.keys d) ->
  Dict.modify (label it) (bump it) d = map (upd it) d.
Proof.
  induction d as [|[k' v'] d IH]; simpl; [reflexivity|].
  intros [Hk Hd]. unfold upd at 1; simpl.
  destruct (Py.key_eqb (label it) k') eqn:E.
  - rewrite map_upd_unseen; [reflexivity|].
    rewrite (seen_eqv _ _ _ E). exact Hk.
  - rewrite IH by assumption. reflexivity.
Qed.

Lemma keys_map_upd (it : failed_item) (d : pydict) :
  Dict.keys (map (upd it) d) = Dict.keys d.
Proof.
  unfold Dict.keys. rewrite map_map. apply map_ext.
  intros [k v]; unfold upd; simpl. destruct (Py.key_eqb (label it) k); reflexivity.
Qed.

Lemma distinct_snoc (ks : list json) (k : json) :
  distinct ks -> seen k ks = false -> distinct (ks ++ [k]).
Proof.
  induction ks as [|a ks IH]; simpl.
  - intros _ _. split; [reflexivity|exact I].
  - intros [Ha Hd] Hk. apply orb_false_iff in Hk as [Hka Hk].
    split; [|apply IH; assumption].
    rewrite seen_app, Ha. simpl. rewrite key_eqb_sym, Hka. reflexivity.
Qed.

(** ** One pass of the grouping loop *)

Lemma add_item_unhashable (by_page : pydict) (it : failed_item) :
  Py.hashable (label it) = false -> add_item by_page it = Raise TypeError.
Proof. unfold add_item. intros ->. reflexivity. Qed.

Lemma add_item_seen (by_page : pydict) (it : failed_item) :
  distinct (Dict.keys by_page) ->
  seen (label it) (Dict.keys by_page) = true ->
  add_item by_page it = Ret (map (upd it) by_page).
Proof.
  intros Hd Hs. unfold add_item.
  assert (Hh : Py.hashable (label it) = true).
  { unfold seen in Hs. apply existsb_exists in Hs as [k [_ Hk]].
    apply key_eqb_hashable in Hk. apply Hk. }
  rewrite Hh, setdefault_seen by assumption.
  rewrite modify_distinct by assumption. reflexivity.
Qed.

Lemma add_item_unseen (by_page : pydict) (it : failed_item) :
  Py.hashable (label it) = true ->
  seen (label it) (Dict.keys by_page) = false ->
  add_item by_page it =
  Ret (by_page ++ [(label it, bump it (fresh_summary (label it)))]).
Proof.
  intros Hh Hs. unfold add_item. rewrite Hh, setdefault_unseen by assumption.
  rewrite modify_app_unseen by assumption. simpl.
  rewrite key_eqb_refl by assumption. reflexivity.
Qed.

(** ** The whole grouping loop *)

Lemma labelled_cons (k : json) (it : failed_item) (items : list failed_item) :
  labelled k (it :: items) =
  if Py.key_eqb (label it) k then it :: labelled k items else labelled k items.
Proof. reflexivity. Qed.

Lemma group_by_page_spec (items : list failed_item) :
  forall by_page by_page',
    distinct (Dict.keys by_page) ->
    group_by_page items by_page = Ret by_page' ->
    by_page' =
    map (old_entry items) by_page
    ++ map (new_entry items)
         (filter (fun k => negb (seen k (Dict.keys by_page)))
                 (first_occurrences (map label items))).
Proof.
  induction items as [|x r IH]; intros bp bp' Hd H.
  - simpl in H. injection H as <-. simpl. rewrite app_nil_r.
    rewrite <- (map_id bp) at 1. apply map_ext. intros [k v]. reflexivity.
  - simpl in H. destruct (Py.hashable (label x)) eqn:Hh.
    2:{ rewrite add_item_unhashable in H by assumption. discriminate. }
    destruct (seen (label x) (Dict.keys bp)) eqn:Hs.
    + rewrite add_item_seen in H by assumption. simpl in H.
      apply IH in H; [|rewrite keys_map_upd; assumption].
      rewrite keys_map_upd in H. subst bp'.
      cbn [map first_occurrences filter]. rewrite Hs. cbn [negb].
      rewrite map_map. f_equal.
      * apply map_ext. intros [k v]. unfold old_entry, upd. cbn [fst snd].
        rewrite labelled_cons. destruct (Py.key_eqb (label x) k); reflexivity.
      * assert (Hf : forall L,
          filter (fun k => negb (seen k (Dict.keys bp)))
                 (filter (fun y => negb (Py.key_eqb (label x) y)) L)
          = filter (fun k => negb (seen k (Dict.keys bp))) L).
        { induction L as [|y L IHL]; simpl; [reflexivity|].
          destruct (Py.key_eqb (label x) y) eqn:E; simpl.
          - rewrite <- (seen_eqv _ _ _ E), Hs. simpl. exact IHL.
          - rewrite IHL. reflexivity. }
        rewrite Hf. apply map_ext_in. intros k Hk.
        apply filter_In in Hk as [_ Hk]. unfold new_entry. rewrite labelled_cons.
        destruct (Py.key_eqb (label x) k) eqn:E; [|reflexivity].
        rewrite <- (seen_eqv _ _ _ E), Hs in Hk. discriminate.
    + rewrite add_item_unseen in H by assumption. simpl in H.
      apply IH in H.
      2:{ unfold Dict.keys. rewrite map_app. simpl. apply distinct_snoc; assumption. }
      subst bp'. cbn [map first_occurrences filter]. rewrite Hs. cbn [negb].
      rewrite map_app. cbn [map]. rewrite <- app_assoc. cbn [app].
      f_equal; [|f_equal].
      * apply map_ext_in. intros [k v] Hin. unfold old_entry. cbn [fst snd].
        rewrite labelled_cons. destruct (Py.key_eqb (label x) k) eqn:E; [|reflexivity].
        exfalso. unfold seen in Hs.
        assert (existsb (Py.key_eqb (label x)) (Dict.keys bp) = true); [|congruence].
        apply existsb_exists. exists k. split; [|assumption].
        unfold Dict.keys. apply (in_map fst) in Hin. exact Hin.
      * unfold old_entry, new_entry. cbn [fst snd]. rewrite labelled_cons.
        rewrite key_eqb_refl by assumption. reflexivity.
      * unfold Dict.keys. rewrite map_app. cbn [map fst].
        assert (Hf : forall L,
          filter (fun k => negb (seen k (map fst bp ++ [label x]))) L
          = filter (fun k => negb (seen k (map fst bp)))
                   (filter (fun y => negb (Py.key_eqb (label x) y)) L)).
        { induction L as [|y L IHL]; simpl; [reflexivity|].
          rewrite seen_app. simpl. rewrite (key_eqb_sym y).
          destruct (Py.key_eqb (label x) y) eqn:E; simpl.
          - rewrite orb_true_r. simpl. exact IHL.
          - rewrite !orb_false_r. destruct (seen y (map fst bp)); simpl;
              rewrite IHL; reflexivity. }
        rewrite Hf. apply map_ext_in. intros k Hk.
        apply filter_In in Hk as [Hk _]. apply filter_In in Hk as [_ Hk].
        unfold new_entry. rewrite labelled_cons.
        destruct (Py.key_eqb (label x) k); [discriminate|reflexivity].
Qed.

(** ** Lines 113-115 on one page *)

Lemma bump_page (it : failed_item) (ps : page_summary) : page (bump it ps) = page ps.
Proof. unfold bump. destruct (_ && _); reflexivity. Qed.

Lemma bump_count (it : failed_item) (ps : page_summary) :
  count (bump it ps) = count ps + 1.
Proof. unfold bump. destruct (_ && _); reflexivity. Qed.

Lemma apply_items_spec (its : list failed_item) :
  forall ps,
    List.length (samples ps) <= 5 ->
    page (apply_items its ps) = page ps /\
    count (apply_items its ps) = count ps + List.length its /\
    samples (apply_items its ps) = firstn 5 (samples ps ++ map fileName (named its)).
Proof.
  induction its as [|it r IH]; intros ps Hlen.
  - unfold apply_items, named. cbn [fold_left filter map List.length].
    rewrite app_nil_r, firstn_all2 by assumption. auto with arith.
  - change (apply_items (it :: r) ps) with (apply_items r (bump it ps)).
    assert (Hb : samples (bump it ps) =
                 if (List.length (samples ps) <? 5) && Py.truthy (fileName it)
                 then samples ps ++ [fileName it] else samples ps).
    { unfold bump. cbn [samples]. destruct (_ && _); reflexivity. }
    assert (Hlen' : List.length (samples (bump it ps)) <= 5).
    { rewrite Hb. destruct (List.length (samples ps) <? 5) eqn:E; simpl; [|assumption].
      apply Nat.ltb_lt in E. destruct (Py.truthy (fileName it)); [|assumption].
      rewrite length_app. simpl. lia. }
    destruct (IH _ Hlen') as [Hp [Hc Hs]].
    rewrite Hp, Hc, Hs, bump_page, bump_count. split; [reflexivity|]. split.
    + cbn [List.length]. lia.
    + rewrite Hb. unfold named. cbn [filter].
      destruct (Py.truthy (fileName it)) eqn:Ht.
      * destruct (List.length (samples ps) <? 5) eqn:E; cbn [andb map].
        -- rewrite <- app_assoc. reflexivity.
        -- apply Nat.ltb_ge in E. rewrite !firstn_app.
           replace (5 - List.length (samples ps)) with 0 by lia. reflexivity.
      * rewrite andb_false_r. reflexivity.
Qed.

Lemma fresh_apply_items (k : json) (its : list failed_item) :
  apply_items its (fresh_summary k) =
  {| page := k; count := List.length its;
     samples := firstn 5 (map fileName (named its)) |}.
Proof.
  destruct (apply_items_spec its (fresh_summary k)) as [Hp [Hc Hs]];
    [simpl; lia|].
  destruct (apply_items its (fresh_summary k)) as [p c s]. simpl in *.
  subst. reflexivity.
Qed.

(** ** The sum of the counts *)

Lemma sum_counts_app (l1 l2 : list page_summary) :
  sum_counts (l1 ++ l2) = sum_counts l1 + sum_counts l2.
Proof. unfold sum_counts. rewrite map_app, list_sum_app. reflexivity. Qed.

Lemma setdefault_sum (p : json) (d : pydict) :
  sum_counts (Dict.values (Dict.setdefault p (fresh_summary p) d))
  = sum_counts (Dict.values d).
Proof.
  induction d as [|[k v] d IH]; [reflexivity|].
  simpl. destruct (Py.key_eqb p k); [reflexivity|].
  unfold sum_counts, Dict.values in *. simpl. rewrite IH. reflexivity.
Qed.

Lemma setdefault_makes_seen (p : json) (v : page_summary) (d : pydict) :
  Py.hashable p = true -> seen p (Dict.keys (Dict.setdefault p v d)) = true.
Proof.
  intros Hh. induction d as [|[k v'] d IH]; simpl.
  - rewrite key_eqb_refl by assumption. reflexivity.
  - destruct (Py.key_eqb p k) eqn:E; simpl; rewrite E; [reflexivity|exact IH].
Qed.

Lemma modify_sum (it : failed_item) (d : pydict) :
  seen (label it) (Dict.keys d) = true ->
  sum_counts (Dict.values (Dict.modify (label it) (bump it) d))
  = S (sum_counts (Dict.values d)).
Proof.
  induction d as [|[k v] d IH]; simpl; [discriminate|].
  destruct (Py.key_eqb (label it) k); simpl; intros H.
  - unfold sum_counts, Dict.values. simpl. rewrite bump_count. lia.
  - unfold sum_counts, Dict.values in *. simpl. rewrite IH by assumption. lia.
Qed.

Lemma add_item_sum (by_page by_page' : pydict) (it : failed_item) :
  add_item by_page it = Ret by_page' ->
  sum_counts (Dict.values by_page') = S (sum_counts (Dict.values by_page)).
Proof.
  unfold add_item. destruct (Py.hashable (label it)) eqn:Hh; [|discriminate].
  intros H. injection H as <-.
  rewrite modify_sum, setdefault_sum; [reflexivity|].
  apply setdefault_makes_seen. assumption.
Qed.

Lemma group_by_page_sum (items : list failed_item) :
  forall by_page by_page',
    group_by_page items by_page = Ret by_page' ->
    sum_counts (Dict.values by_page')
    = sum_counts (Dict.values by_page) + List.length items.
Proof.
  induction items as [|it r IH]; intros bp bp' H; simpl in H.
  - injection H as <-. simpl. lia.
  - destruct (add_item bp it) as [bp1|e] eqn:E; [|discriminate]. simpl in H.
    apply IH in H. rewrite H, (add_item_sum _ _ _ E). simpl. lia.
Qed.

(** ** [sorted] *)

Lemma ascii_compare_refl (c : ascii) : Ascii.compare c c = Eq.
Proof. unfold Ascii.compare. apply N.compare_refl. Qed.

Lemma leb_refl (a : string) : String.leb a a = true.
Proof. destruct (String.leb_total a a); assumption. Qed.

Lemma leb_trans (a : string) :
  forall b c, String.leb a b = true -> String.leb b c = true -> String.leb a c = true.
Proof.
  unfold String.leb.
  induction a as [|x a IH]; intros [|y b] [|z c]; simpl; try easy.
  specialize (IH b c). unfold Ascii.compare.
  destruct (N.compare_spec (N_of_ascii x) (N_of_ascii y)) as [E1|L1|G1];
    destruct (N.compare_spec (N_of_ascii y) (N_of_ascii z)) as [E2|L2|G2];
    destruct (N.compare_spec (N_of_ascii x) (N_of_ascii z)) as [E3|L3|G3];
    try easy; try lia.
Qed.

Lemma leb_append (p a b : string) :
  String.leb (p ++ a) (p ++ b) = String.leb a b.
Proof.
  unfold String.leb. induction p as [|c p IH]; simpl; [reflexivity|].
  rewrite ascii_compare_refl. exact IH.
Qed.

Lemma insert_perm (x : string) (l : list string) : Permutation (insert x l) (x :: l).
Proof.
  induction l as [|y l IH]; simpl; [reflexivity|].
  destruct (String.leb x y); [reflexivity|].
  rewrite IH. apply perm_swap.
Qed.

Lemma sorted_perm (l : list string) : Permutation (sorted l) l.
Proof.
  induction l as [|x l IH]; simpl; [reflexivity|].
  rewrite insert_perm, IH. reflexivity.
Qed.

Lemma insert_sorted (x : string) (l : list string) :
  StronglySorted le_str l -> StronglySorted le_str (insert x l).
Proof.
  induction 1 as [|y l Hs IH Hall]; simpl.
  - constructor; constructor.
  - destruct (String.leb x y) eqn:E.
    + constructor; [constructor; assumption|].
      constructor; [exact E|].
      eapply Forall_impl; [|exact Hall].
      intros z Hz. eapply leb_trans; eassumption.
    + constructor; [exact IH|].
      assert (Hyx : le_str y x).
      { destruct (String.leb_total x y) as [H|H]; [congruence|exact H]. }
      eapply Permutation_Forall; [symmetry; apply insert_perm|].
      constructor; assumption.
Qed.

Lemma sorted_sorted (l : list string) : StronglySorted le_str (sorted l).
Proof.
  induction l as [|x l IH]; simpl; [constructor|].
  apply insert_sorted. exact IH.
Qed.

(** A sorted list of strings is determined by its elements. *)
Lemma sorted_unique (l1 : list string) :
  forall l2,
    StronglySorted le_str l1 -> StronglySorted le_str l2 ->
    Permutation l1 l2 -> l1 = l2.
Proof.
  induction l1 as [|x l1 IH]; intros l2 H1 H2 P.
  - apply Permutation_nil in P. congruence.
  - destruct l2 as [|y l2]; [symmetry in P; apply Permutation_nil in P; discriminate|].
    apply StronglySorted_inv in H1 as [H1 A1].
    apply StronglySorted_inv in H2 as [H2 A2].
    assert (x = y).
    { assert (Hx : In x (y :: l2)) by (eapply Permutation_in; [exact P|left; reflexivity]).
      assert (Hy : In y (x :: l1))
        by (eapply Permutation_in; [symmetry; exact P|left; reflexivity]).
      destruct Hx as [->|Hx]; [reflexivity|].
      destruct Hy as [->|Hy]; [reflexivity|].
      rewrite Forall_forall in A1, A2.
      apply String.leb_antisym; [apply A1|apply A2]; assumption. }
    subst y. f_equal. apply IH; try assumption.
    eapply Permutation_cons_inv; exact P.
Qed.

Lemma filter_sorted (f : string -> bool) (l : list string) :
  StronglySorted le_str l -> StronglySorted le_str (filter f l).
Proof.
  induction 1 as [|y l Hs IH Hall]; simpl; [constructor|].
  destruct (f y); [|exact IH].
  constructor; [exact IH|].
  rewrite Forall_forall in *. intros z Hz. apply filter_In in Hz as [Hz _]. auto.
Qed.

Lemma perm_filter (f : string -> bool) (l1 l2 : list string) :
  Permutation l1 l2 -> Permutation (filter f l1) (filter f l2).
Proof.
  induction 1 as [|x l1 l2 P IH|x y l|l1 l2 l3 P1 IH1 P2 IH2]; simpl.
  - constructor.
  - destruct (f x); [constructor|]; exact IH.
  - destruct (f x), (f y); try reflexivity. apply perm_swap.
  - etransitivity; eassumption.
Qed.

Lemma sorted_filter (f : string -> bool) (l : list string) :
  sorted (filter f l) = filter f (sorted l).
Proof.
  apply sorted_unique.
  - apply sorted_sorted.
  - apply filter_sorted, sorted_sorted.
  - rewrite sorted_perm. apply perm_filter. symmetry. apply sorted_perm.
Qed.

(** Sorting paths that share a directory prefix sorts the file names. *)
Lemma insert_prefix (p x : string) (l : list string) :
  insert (p ++ x) (map (String.append p) l) = map (String.append p) (insert x l).
Proof.
  induction l as [|y l IH]; simpl; [reflexivity|].
  rewrite leb_append. destruct (String.leb x y); simpl; [reflexivity|].
  rewrite IH. reflexivity.
Qed.

Lemma sorted_prefix (p : string) (names : list string) :
  sorted (map (String.append p) names) = map (String.append p) (sorted names).
Proof.
  induction names as [|x l IH]; simpl; [reflexivity|].
  rewrite IH. apply insert_prefix.
Qed.

(** ** The loop over the test entries *)

Lemma collect_failed_items (tests : list json) (its : list failed_item) :
  collect_failed tests = Ret its -> its = items_of_tests tests.
Proof.
  revert its. induction tests as [|t r IH]; intros its H; simpl in H.
  - injection H as <-. reflexivity.
  - unfold items_of_tests. simpl.
    destruct (failed_item_of t) as [o|e]; [|discriminate]. simpl in H.
    destruct (collect_failed r) as [its'|e]; [|discriminate]. simpl in H.
    injection H as <-. rewrite (IH its' eq_refl).
    destruct o; reflexivity.
Qed.

(** ** The loop over the report files *)

Lemma logged_stderr (w : world) : logged (stderr w) w = w.
Proof. destruct w. reflexivity. Qed.

Lemma loaded_items_ext (w1 w2 : world) (files : list string) :
  load_json w1 = load_json w2 -> loaded_items w1 files = loaded_items w2 files.
Proof.
  intros E. induction files as [|f r IH]; simpl; [reflexivity|].
  rewrite E, IH. reflexivity.
Qed.

Lemma warnings_ext (w1 w2 : world) (files : list string) :
  load_json w1 = load_json w2 ->
  forall log, warnings w1 files log = warnings w2 files log.
Proof.
  intros E. induction files as [|f r IH]; intros log; simpl; [reflexivity|].
  rewrite E. destruct (load_json w2 f); apply IH.
Qed.

Lemma load_reports_ret (files : list string) :
  forall failed_items w more,
    loaded_items w files = Ret more ->
    load_reports files failed_items w
    = (Ret (failed_items ++ more), logged (warnings w files (stderr w)) w).
Proof.
  induction files as [|f r IH]; intros acc w more H;
    cbn [loaded_items] in H; cbn [load_reports].
  - injection H as <-. unfold ret. cbn [warnings].
    rewrite app_nil_r, logged_stderr. reflexivity.
  - destruct (load_json w f) as [data|e] eqn:E.
    + unfold bind, lift.
      destruct (items_of_report data) as [its|x]; [|discriminate]. simpl in H.
      destruct (loaded_items w r) as [more'|x] eqn:E'; [|discriminate]. simpl in H.
      injection H as <-. cbn [warnings]. rewrite E.
      rewrite (IH _ _ _ E'), app_assoc. reflexivity.
    + unfold bind, eprint. cbv beta iota. cbn [warnings]. rewrite E.
      rewrite (IH acc (with_stderr _ w) more).
      * rewrite (warnings_ext (with_stderr _ w) w) by reflexivity. reflexivity.
      * rewrite <- H. apply loaded_items_ext. reflexivity.
Qed.

Lemma load_reports_raise (files : list string) :
  forall failed_items w e,
    loaded_items w files = Raise e ->
    exists log, load_reports files failed_items w = (Raise e, logged log w).
Proof.
  induction files as [|f r IH]; intros acc w x H;
    cbn [loaded_items] in H; cbn [load_reports].
  - discriminate.
  - destruct (load_json w f) as [data|e] eqn:E.
    + unfold bind, lift.
      destruct (items_of_report data) as [its|y]; simpl in H.
      * destruct (loaded_items w r) as [more'|y] eqn:E'; [discriminate|]. simpl in H.
        injection H as <-. apply IH. exact E'.
      * injection H as <-. exists (stderr w). rewrite logged_stderr. reflexivity.
    + unfold bind, eprint. cbv beta iota.
      destruct (IH acc (with_stderr ("Failed to read report " ++ f ++ ": " ++ e) w) x)
        as [log Hlog].
      * rewrite <- H. apply loaded_items_ext. reflexivity.
      * exists log. rewrite Hlog. reflexivity.
Qed.

Lemma items_of_tests_app (l1 l2 : list json) :
  items_of_tests (l1 ++ l2) = items_of_tests l1 ++ items_of_tests l2.
Proof. apply flat_map_app. Qed.

(** A report whose loop ends has contributed the failed items of its test
    entries, in their order. *)
Lemma items_of_report_ret (data : json) (its : list failed_item) :
  items_of_report data = Ret its -> its = items_of_tests (report_tests data).
Proof.
  unfold items_of_report. destruct data as [| | | |l|m]; try discriminate.
  simpl. destruct (Py.assoc "tests" m) as [v|]; simpl.
  - destruct v as [|[|]|n|[|c s]|[|x l]|[|[k x] l]]; simpl; intros H;
      try discriminate; try (injection H as <-; reflexivity).
    + unfold Py.or_ in H. simpl in H. destruct (n =? 0)%Z; simpl in H.
      * injection H as <-. reflexivity.
      * discriminate.
    + destruct (failed_item_of x) as [o|e]; [|discriminate]. simpl in H.
      destruct (collect_failed l) as [its'|e] eqn:E; [|discriminate]. simpl in H.
      injection H as <-. apply collect_failed_items in E. subst its'.
      unfold items_of_tests. simpl. destruct o; reflexivity.
  - intros H. injection H as <-. reflexivity.
Qed.

Lemma loaded_items_flat (w : world) (files : list string) (items : list failed_item) :
  loaded_items w files = Ret items ->
  items = items_of_tests (flat_map (file_tests w) files).
Proof.
  revert items. induction files as [|f r IH]; intros items H; simpl in H.
  - injection H as <-. reflexivity.
  - simpl. rewrite items_of_tests_app. unfold file_tests at 1.
    destruct (load_json w f) as [data|e].
    + destruct (items_of_report data) as [its|x] eqn:E; [|discriminate]. simpl in H.
      destruct (loaded_items w r) as [more|x]; [|discriminate]. simpl in H.
      injection H as <-. rewrite (IH more eq_refl).
      rewrite (items_of_report_ret _ _ E). reflexivity.
    + simpl. apply IH. exact H.
Qed.

(** ** [collect_diffs], case by case *)

Lemma collect_diffs_no_files (report_dir : string) (w : world) :
  glob_json w report_dir = [] ->
  collect_diffs report_dir w = (Ret empty_aggregate, w).
Proof. unfold collect_diffs. intros ->. reflexivity. Qed.

Lemma sorted_nil (l : list string) : sorted l = [] -> l = [].
Proof.
  intros H. pose proof (sorted_perm l) as P. rewrite H in P.
  apply Permutation_nil in P. exact P.
Qed.

Lemma collect_diffs_some_files (report_dir : string) (w : world) :
  glob_json w report_dir <> [] ->
  collect_diffs report_dir w =
  (failed_items <- load_reports (sorted (glob_json w report_dir)) [] ;;
   by_page <- lift (group_by_page failed_items []) ;;
   write_file DIFF_SUMMARY_PATH
     (Json.dumps (json_of_aggregate (summary_of failed_items by_page))) ;;
   ret (summary_of failed_items by_page)) w.
Proof.
  intros H. unfold collect_diffs.
  destruct (sorted (glob_json w report_dir)) eqn:E; [|reflexivity].
  apply sorted_nil in E. contradiction.
Qed.

(** What a call that returns has done. *)
Lemma collect_diffs_ret (report_dir : string) (w w' : world) (agg : aggregate) :
  collect_diffs report_dir w = (Ret agg, w') ->
  (glob_json w report_dir = [] /\ agg = empty_aggregate /\ w' = w)
  \/ (glob_json w report_dir <> [] /\
      exists by_page,
        let files := sorted (glob_json w report_dir) in
        let items := failed_items_in w report_dir in
        loaded_items w files = Ret items /\
        group_by_page items [] = Ret by_page /\
        agg = summary_of items by_page /\
        out_dir w = true /\
        w' = with_file DIFF_SUMMARY_PATH (Json.dumps (json_of_aggregate agg))
                       (logged (warnings w files (stderr w)) w)).
Proof.
  intros H. destruct (glob_json w report_dir) as [|f0 fs] eqn:G.
  - left. rewrite collect_diffs_no_files in H by assumption.
    injection H as <- <-. auto.
  - right. split; [discriminate|].
    rewrite collect_diffs_some_files in H by (rewrite G; discriminate).
    unfold failed_items_in, all_tests. rewrite G in *.
    set (files := sorted (f0 :: fs)) in *.
    unfold bind in H.
    destruct (loaded_items w files) as [items|e] eqn:L.
    + rewrite (load_reports_ret _ [] _ _ L) in H. simpl in H.
      unfold lift in H.
      destruct (group_by_page items []) as [bp|e] eqn:Gp; [|discriminate].
      unfold write_file in H. simpl in H.
      destruct (out_dir w) eqn:O; [|discriminate].
      unfold ret in H. injection H as <- <-.
      exists bp. cbv zeta. rewrite <- (loaded_items_flat _ _ _ L). auto.
    + destruct (load_reports_raise _ [] _ _ L) as [log Hlog].
      rewrite Hlog in H. discriminate.
Qed.

(** ** First occurrences *)

Lemma seen_filter_other (k x : json) (l : list json) :
  Py.key_eqb k x = false ->
  seen k (filter (fun y => negb (Py.key_eqb x y)) l) = seen k l.
Proof.
  intros Hkx. induction l as [|y l IH]; simpl; [reflexivity|].
  destruct (Py.key_eqb x y) eqn:E; simpl; rewrite IH; [|reflexivity].
  destruct (Py.key_eqb k y) eqn:E'; [|reflexivity].
  rewrite key_eqb_sym in E.
  rewrite (key_eqb_trans _ _ _ E' E) in Hkx. discriminate.
Qed.

Lemma seen_filter_self (x : json) (l : list json) :
  seen x (filter (fun y => negb (Py.key_eqb x y)) l) = false.
Proof.
  induction l as [|y l IH]; simpl; [reflexivity|].
  destruct (Py.key_eqb x y) eqn:E; simpl; [exact IH|].
  rewrite E, IH. reflexivity.
Qed.

(** A value is seen among the first occurrences exactly when it is seen in
    the list. *)
Lemma first_occurrences_seen (k : json) (l : list json) :
  seen k (first_occurrences l) = seen k l.
Proof.
  induction l as [|x l IH]; simpl; [reflexivity|].
  destruct (Py.key_eqb k x) eqn:E; simpl; [reflexivity|].
  rewrite seen_filter_other by assumption. exact IH.
Qed.

(** The first occurrences are members of the list. *)
Lemma first_occurrences_incl (k : json) (l : list json) :
  In k (first_occurrences l) -> In k l.
Proof.
  induction l as [|x l IH]; simpl; [tauto|].
  intros [H|H]; [left; exact H|right].
  apply filter_In in H as [H _]. auto.
Qed.

Lemma distinct_filter (f : json -> bool) (l : list json) :
  distinct l -> distinct (filter f l).
Proof.
  induction l as [|x l IH]; simpl; [tauto|].
  intros [Hx Hd]. destruct (f x); simpl; [|auto].
  split; [|auto].
  unfold seen in *. destruct (existsb (Py.key_eqb x) (filter f l)) eqn:E; [|reflexivity].
  apply existsb_exists in E as [y [Hy Hxy]]. apply filter_In in Hy as [Hy _].
  rewrite <- Hx. symmetry. apply existsb_exists. exists y. auto.
Qed.

(** No two first occurrences are equal. *)
Lemma first_occurrences_distinct (l : list json) : distinct (first_occurrences l).
Proof.
  induction l as [|x l IH]; simpl; [exact I|].
  split; [apply seen_filter_self|apply distinct_filter; exact IH].
Qed.

Lemma filter_unseen_nil (L : list json) :
  filter (fun k => negb (seen k [])) L = L.
Proof.
  induction L as [|y L IHL]; [reflexivity|].
  cbn [filter seen existsb negb]. f_equal. exact IHL.
Qed.

(** The first occurrences of a concatenation: those of the first part, then
    those of the second part not seen in the first. *)
Lemma first_occurrences_app (l1 l2 : list json) :
  first_occurrences (l1 ++ l2)
  = first_occurrences l1
    ++ filter (fun y => negb (seen y l1)) (first_occurrences l2).
Proof.
  induction l1 as [|x l1 IH]; simpl.
  - symmetry. apply filter_unseen_nil.
  - f_equal. rewrite IH, filter_app. f_equal. clear IH.
    induction (first_occurrences l2) as [|y L IHL]; simpl; [reflexivity|].
    rewrite (key_eqb_sym y x).
    destruct (seen y l1); simpl.
    + rewrite orb_true_r. simpl. exact IHL.
    + rewrite orb_false_r. destruct (Py.key_eqb x y); simpl; rewrite IHL; reflexivity.
Qed.

Lemma filter_other_eqv (x y : json) (l : list json) :
  Py.key_eqb x y = true ->
  filter (fun z => negb (Py.key_eqb x z)) (filter (fun z => negb (Py.key_eqb y z)) l)
  = filter (fun z => negb (Py.key_eqb x z)) l.
Proof.
  intros E. induction l as [|z l IH]; simpl; [reflexivity|].
  destruct (Py.key_eqb y z) eqn:Ey; simpl.
  - rewrite (key_eqb_trans _ _ _ E Ey). simpl. exact IH.
  - rewrite IH. reflexivity.
Qed.

Lemma filter_other_comm (x y : json) (l : list json) :
  filter (fun z => negb (Py.key_eqb x z)) (filter (fun z => negb (Py.key_eqb y z)) l)
  = filter (fun z => negb (Py.key_eqb y z)) (filter (fun z => negb (Py.key_eqb x z)) l).
Proof.
  induction l as [|z l IH]; simpl; [reflexivity|].
  destruct (Py.key_eqb y z) eqn:Ey, (Py.key_eqb x z) eqn:Ex; simpl;
    rewrite ?Ex, ?Ey; simpl; rewrite IH; reflexivity.
Qed.

Lemma first_occurrences_filter (x : json) (l : list json) :
  first_occurrences (filter (fun y => negb (Py.key_eqb x y)) l)
  = filter (fun y => negb (Py.key_eqb x y)) (first_occurrences l).
Proof.
  induction l as [|y l IH]; simpl; [reflexivity|].
  destruct (Py.key_eqb x y) eqn:E; simpl.
  - rewrite IH. symmetry. apply filter_other_eqv. exact E.
  - rewrite IH. f_equal. apply filter_other_comm.
Qed.

(** The first occurrences of a list: its head, then the first occurrences of
    what differs from the head in its tail. *)
Lemma first_occurrences_cons (x : json) (l : list json) :
  first_occurrences (x :: l)
  = x :: first_occurrences (filter (fun y => negb (Py.key_eqb x y)) l).
Proof. simpl. rewrite first_occurrences_filter. reflexivity. Qed.

(** ** The result of the grouping loop *)

Lemma group_by_page_values (items : list failed_item) (by_page : pydict) :
  group_by_page items [] = Ret by_page ->
  Dict.values by_page
  = map (page_summary_of items) (first_occurrences (map label items)).
Proof.
  intros H. apply group_by_page_spec in H; [|exact I]. subst by_page.
  cbn [map app Dict.keys]. unfold Dict.values. rewrite map_map.
  rewrite filter_unseen_nil. apply map_ext. intros k. unfold new_entry. simpl.
  apply fresh_apply_items.
Qed.

Lemma pages_of_collect_diffs (report_dir : string) (w w' : world) (agg : aggregate) :
  collect_diffs report_dir w = (Ret agg, w') ->
  pages agg
  = map (page_summary_of (failed_items_in w report_dir))
        (first_occurrences (map label (failed_items_in w report_dir))) /\
  totalFailed agg = List.length (failed_items_in w report_dir).
Proof.
  intros H. apply collect_diffs_ret in H as [[G [-> _]]|[_ [bp H]]].
  - unfold failed_items_in, all_tests. rewrite G. split; reflexivity.
  - cbv zeta in H. destruct H as [_ [Hg [-> _]]].
    simpl. split; [|reflexivity]. apply group_by_page_values. exact Hg.
Qed.

(** ** The aggregate of a call that returns *)

(** C1. Whenever [collect_diffs] returns an aggregate, whatever the report
    files, its [totalFailed] is the sum of the [count] fields of its page
    summaries, and it is the number of failed items collected.  That the
    call does return on reports of the expected shape is
    [collect_diffs_returns]. *)
Theorem totalFailed_is_sum_of_counts
  (report_dir : string) (w w' : world) (agg : aggregate) :
  collect_diffs report_dir w = (Ret agg, w') ->
  totalFailed agg = sum_counts (pages agg) /\
  totalFailed agg = List.length (failed_items_in w report_dir).
Proof.
  intros H. split; [|apply (pages_of_collect_diffs _ _ _ _ H)].
  apply collect_diffs_ret in H as [[_ [-> _]]|[_ [bp H]]]; [reflexivity|].
  cbv zeta in H. destruct H as [_ [Hg [-> _]]].
  apply group_by_page_sum in Hg. simpl in *. lia.
Qed.

(** C2. In every page summary of a returned aggregate the samples are at
    most five, the count is the number of failed items of that page, and
    when the count is below five and each of these items carries a non-empty
    file name the samples are as many as the count. *)
Theorem samples_bounded_count_exact
  (report_dir : string) (w w' : world) (agg : aggregate) (ps : page_summary) :
  collect_diffs report_dir w = (Ret agg, w') ->
  In ps (pages agg) ->
  List.length (samples ps) <= 5 /\
  count ps = List.length (labelled (page ps) (failed_items_in w report_dir)) /\
  (count ps < 5 ->
   (forall it, In it (labelled (page ps) (failed_items_in w report_dir)) ->
               Py.truthy (fileName it) = true) ->
   List.length (samples ps) = count ps).
Proof.
  intros H Hin. apply pages_of_collect_diffs in H as [Hp _].
  rewrite Hp in Hin. apply in_map_iff in Hin as [k [<- _]].
  unfold page_summary_of. cbn [page count samples].
  split; [|split].
  - rewrite length_firstn. lia.
  - reflexivity.
  - intros Hc Hall. unfold named.
    rewrite forallb_filter_id.
    + rewrite length_firstn, length_map. lia.
    + apply forallb_forall. exact Hall.
Qed.

(** C3. The page summaries of a returned aggregate come in the order in
    which their labels first occur among the failed items, the report files
    being taken in sorted order of their paths and the test entries of a
    file in their order; the sorted paths are the paths found, in increasing
    order. *)
Theorem pages_in_first_occurrence_order
  (report_dir : string) (w w' : world) (agg : aggregate) :
  collect_diffs report_dir w = (Ret agg, w') ->
  map page (pages agg)
  = first_occurrences
      (map label
         (items_of_tests
            (flat_map (file_tests w) (sorted (glob_json w report_dir))))) /\
  StronglySorted le_str (sorted (glob_json w report_dir)) /\
  Permutation (sorted (glob_json w report_dir)) (glob_json w report_dir).
Proof.
  intros H. split; [|split; [apply sorted_sorted|apply sorted_perm]].
  apply pages_of_collect_diffs in H as [-> _].
  rewrite map_map. cbn [page_summary_of page].
  rewrite map_id. reflexivity.
Qed.

(** ** When [collect_diffs] returns *)

Lemma failed_item_of_shaped (test : json) :
  entry_shaped test = true ->
  exists o, failed_item_of test = Ret o /\
            forall it, o = Some it -> Py.hashable (label it) = true.
Proof.
  destruct test as [| | | |l|m]; try discriminate.
  unfold entry_shaped, failed_item_of. cbn [Py.get rbind].
  destruct (Py.eq_str _ "fail"); [|intros _; exists None; split; [reflexivity|discriminate]].
  destruct (Py.assoc "pair" m) as [[| | | |l|pm]|]; try discriminate.
  - cbn [Py.get rbind]. intros H. apply andb_true_iff in H as [Hd Hl].
    assert (Hm : exists x,
               Py.get (Py.or_ (match Py.assoc "diff" pm with Some x => x | None => JNull end)
                              (JObj [])) "misMatchPercentage" JNull = Ret x).
    { destruct (Py.assoc "diff" pm) as [d|]; [|eexists; reflexivity].
      unfold Py.or_. destruct (Py.truthy d); [|eexists; reflexivity].
      destruct d; try discriminate. eexists; reflexivity. }
    destruct Hm as [x ->]. cbn [rbind]. eexists. split; [reflexivity|].
    intros it [= <-]. cbn [label].
    destruct (Py.assoc "label" pm) as [l|]; [|reflexivity].
    unfold Py.or_. destruct (Py.truthy l); [exact Hl|reflexivity].
  - intros _. cbn. eexists. split; [reflexivity|]. intros it [= <-]. reflexivity.
Qed.

Lemma collect_failed_shaped (tests : list json) :
  forallb entry_shaped tests = true ->
  exists its, collect_failed tests = Ret its /\
              Forall (fun it => Py.hashable (label it) = true) its.
Proof.
  induction tests as [|t r IH]; simpl.
  - intros _. exists []. split; [reflexivity|constructor].
  - intros H. apply andb_true_iff in H as [Ht Hr].
    destruct (failed_item_of_shaped _ Ht) as [o [-> Ho]].
    destruct (IH Hr) as [its [-> Hits]]. simpl. eexists. split; [reflexivity|].
    destruct o as [it|]; [|exact Hits]. constructor; auto.
Qed.

Lemma items_of_report_shaped (data : json) :
  report_shaped data = true ->
  exists its, items_of_report data = Ret its /\
              Forall (fun it => Py.hashable (label it) = true) its.
Proof.
  destruct data as [| | | |l|m]; try discriminate.
  unfold report_shaped, items_of_report. cbn [Py.get rbind].
  destruct (Py.assoc "tests" m) as [t|].
  - destruct t as [|b|n|s|l|o]; cbn [negb Py.truthy].
    + intros _. exists []. split; [reflexivity|constructor].
    + destruct b; [discriminate|]. intros _. exists []. split; [reflexivity|constructor].
    + intros H. apply negb_true_iff in H. unfold Py.or_. cbn [Py.truthy].
      apply negb_false_iff in H. rewrite H.
      exists []. split; [reflexivity|constructor].
    + destruct s; [|discriminate]. intros _. exists []. split; [reflexivity|constructor].
    + intros H. destruct l as [|x l].
      * exists []. split; [reflexivity|constructor].
      * unfold Py.or_. cbn [Py.truthy Py.iter rbind]. apply collect_failed_shaped. exact H.
    + destruct o; [|discriminate]. intros _. exists []. split; [reflexivity|constructor].
  - intros _. exists []. split; [reflexivity|constructor].
Qed.

Lemma loaded_items_shaped (w : world) (files : list string) :
  (forall fpath data, In fpath files -> load_json w fpath = Loaded data ->
                      report_shaped data = true) ->
  exists items, loaded_items w files = Ret items /\
                Forall (fun it => Py.hashable (label it) = true) items.
Proof.
  induction files as [|f r IH]; intros H; simpl.
  - exists []. split; [reflexivity|constructor].
  - destruct IH as [more [Hmore Hall]]; [intros; eapply H; [right|]; eassumption|].
    destruct (load_json w f) as [data|e] eqn:E.
    + destruct (items_of_report_shaped data) as [its [-> Hits]];
        [eapply H; [left; reflexivity|exact E]|].
      rewrite Hmore. simpl. eexists. split; [reflexivity|].
      apply Forall_app. auto.
    + exists more. auto.
Qed.

Lemma group_by_page_hashable (items : list failed_item) :
  Forall (fun it => Py.hashable (label it) = true) items ->
  forall by_page, exists by_page', group_by_page items by_page = Ret by_page'.
Proof.
  induction 1 as [|it r Hit _ IH]; intros bp; simpl.
  - eexists; reflexivity.
  - unfold add_item. rewrite Hit. simpl. apply IH.
Qed.

(** The result of [collect_diffs] as a function of what it finds. *)
Lemma collect_diffs_fst (report_dir : string) (w : world) :
  fst (collect_diffs report_dir w) =
  match glob_json w report_dir with
  | [] => Ret empty_aggregate
  | _ :: _ =>
    let* items := loaded_items w (sorted (glob_json w report_dir)) in
    let* by_page := group_by_page items [] in
    if out_dir w then Ret (summary_of items by_page) else Raise OSError
  end.
Proof.
  destruct (glob_json w report_dir) as [|f0 fs] eqn:G.
  - rewrite collect_diffs_no_files by assumption. reflexivity.
  - rewrite collect_diffs_some_files by (rewrite G; discriminate).
    rewrite G. set (files := sorted (f0 :: fs)). unfold bind.
    destruct (loaded_items w files) as [items|e] eqn:L.
    + rewrite (load_reports_ret _ [] _ _ L). simpl. unfold lift.
      destruct (group_by_page items []) as [bp|e]; [|reflexivity].
      unfold write_file. simpl. destruct (out_dir w); reflexivity.
    + destruct (load_reports_raise _ [] _ _ L) as [log ->]. reflexivity.
Qed.

(** On reports of the expected shape [collect_diffs] returns an aggregate,
    provided it can write its summary. *)
Lemma collect_diffs_returns (report_dir : string) (w : world) :
  reports_shaped w report_dir ->
  (glob_json w report_dir <> [] -> out_dir w = true) ->
  exists agg w', collect_diffs report_dir w = (Ret agg, w').
Proof.
  intros Hs Ho.
  assert (H : exists agg, fst (collect_diffs report_dir w) = Ret agg).
  { rewrite collect_diffs_fst.
    destruct (glob_json w report_dir) as [|f0 fs] eqn:G; [eexists; reflexivity|].
    destruct (loaded_items_shaped w (sorted (f0 :: fs))) as [items [-> Hall]].
    - intros f data Hin. apply (Hs f data). rewrite G.
      eapply Permutation_in; [apply sorted_perm|exact Hin].
    - cbn [rbind]. destruct (group_by_page_hashable _ Hall []) as [bp ->]. simpl.
      rewrite Ho by discriminate. eexists; reflexivity. }
  destruct H as [agg H]. exists agg.
  destruct (collect_diffs report_dir w) as [r w']. simpl in H. subst r.
  exists w'. reflexivity.
Qed.

(** ** Reports without failures *)

Lemma failed_item_of_passes (test : json) :
  entry_passes test = true -> failed_item_of test = Ret None.
Proof.
  destruct test as [| | | |l|m]; try discriminate.
  unfold entry_passes, failed_item_of. cbn [Py.get rbind].
  intros H. apply negb_true_iff in H. rewrite H. reflexivity.
Qed.

Lemma collect_failed_passes (tests : list json) :
  forallb entry_passes tests = true -> collect_failed tests = Ret [].
Proof.
  induction tests as [|t r IH]; simpl; [reflexivity|].
  intros H. apply andb_true_iff in H as [Ht Hr].
  rewrite (failed_item_of_passes _ Ht), (IH Hr). reflexivity.
Qed.

Lemma items_of_report_passes (data : json) :
  report_passes data = true -> items_of_report data = Ret [].
Proof.
  destruct data as [| | | |l|m]; try discriminate.
  unfold report_passes, items_of_report. cbn [Py.get rbind].
  destruct (Py.assoc "tests" m) as [t|]; [|reflexivity].
  destruct t as [|b|n|s|l|o]; cbn [negb Py.truthy].
  - reflexivity.
  - destruct b; [discriminate|reflexivity].
  - intros H. apply negb_true_iff, negb_false_iff in H. unfold Py.or_.
    cbn [Py.truthy]. rewrite H. reflexivity.
  - destruct s; [reflexivity|discriminate].
  - destruct l as [|x l]; [reflexivity|].
    unfold Py.or_. cbn [Py.truthy Py.iter rbind]. apply collect_failed_passes.
  - destruct o; [reflexivity|discriminate].
Qed.

Lemma loaded_items_passes (w : world) (files : list string) :
  (forall fpath data, In fpath files -> load_json w fpath = Loaded data ->
                      report_passes data = true) ->
  loaded_items w files = Ret [].
Proof.
  induction files as [|f r IH]; intros H; simpl; [reflexivity|].
  rewrite IH by (intros; eapply H; [right|]; eassumption).
  destruct (load_json w f) as [data|e] eqn:E; [|reflexivity].
  rewrite (items_of_report_passes data); [reflexivity|].
  eapply H; [left; reflexivity|exact E].
Qed.

(** C4. When no report of the directory that can be read has a failing test
    entry, and in particular when the directory has no report at all,
    [collect_diffs] returns the aggregate with no page and [totalFailed]
    0.  The directory [out] has to exist for the summary to be written; with
    no report file nothing is written and nothing is required. *)
Theorem no_failures_empty_aggregate (report_dir : string) (w : world) :
  (forall fpath data,
      In fpath (glob_json w report_dir) -> load_json w fpath = Loaded data ->
      report_passes data = true) ->
  (glob_json w report_dir <> [] -> out_dir w = true) ->
  exists w',
    collect_diffs report_dir w = (Ret {| pages := []; totalFailed := 0 |}, w').
Proof.
  intros Hp Ho.
  assert (H : fst (collect_diffs report_dir w) = Ret empty_aggregate).
  { rewrite collect_diffs_fst.
    destruct (glob_json w report_dir) as [|f0 fs] eqn:G; [reflexivity|].
    rewrite loaded_items_passes.
    - simpl. rewrite Ho by discriminate. reflexivity.
    - intros f data Hin. apply (Hp f data).
      eapply Permutation_in; [apply sorted_perm|exact Hin]. }
  destruct (collect_diffs report_dir w) as [r w']. simpl in H. subst r.
  exists w'. reflexivity.
Qed.

(** ** Unreadable reports *)

Lemma loaded_items_skip (w : world) (fpath e : string) (files : list string) :
  load_json w fpath = Unreadable e ->
  loaded_items w (filter (fun p => negb (String.eqb p fpath)) files)
  = loaded_items w files.
Proof.
  intros Hf. induction files as [|f r IH]; simpl; [reflexivity|].
  destruct (String.eqb_spec f fpath) as [->|Hne]; simpl.
  - rewrite Hf. exact IH.
  - rewrite IH. reflexivity.
Qed.

(** C5. A report file that cannot be read or parsed is skipped: the outcome
    of [collect_diffs] is the one it has on the same directory without that
    file.  The directory [out] exists, as it does once [main] has created
    it. *)
Theorem unreadable_report_is_skipped (report_dir fpath e : string) (w : world) :
  load_json w fpath = Unreadable e ->
  out_dir w = true ->
  fst (collect_diffs report_dir w)
  = fst (collect_diffs report_dir (without_file fpath w)).
Proof.
  intros Hf Ho. rewrite !collect_diffs_fst.
  cbn [without_file glob_json out_dir]. rewrite Ho.
  rewrite sorted_filter.
  rewrite (loaded_items_ext (without_file fpath w) w) by reflexivity.
  rewrite (loaded_items_skip _ _ _ _ Hf).
  destruct (glob_json w report_dir) as [|f0 fs] eqn:G; [reflexivity|].
  destruct (filter _ (f0 :: fs)) as [|g0 gs] eqn:F; [|reflexivity].
  assert (L : loaded_items w (sorted (f0 :: fs)) = Ret []).
  { rewrite <- (loaded_items_skip _ _ _ _ Hf), <- sorted_filter, F. reflexivity. }
  rewrite L. reflexivity.
Qed.

(** ** One failed item in the dict *)

Lemma add_item_lookup (by_page : pydict) (it : failed_item) :
  Py.hashable (label it) = true ->
  exists by_page',
    add_item by_page it = Ret by_page' /\
    Dict.lookup (label it) by_page' = Some (bump it (entry_of (label it) by_page)) /\
    forall k, Py.key_eqb k (label it) = false ->
              Dict.lookup k by_page' = Dict.lookup k by_page.
Proof.
  intros Hh. unfold add_item. rewrite Hh. eexists. split; [reflexivity|].
  unfold entry_of. induction by_page as [|[k' v'] d [IH1 IH2]]; simpl.
  - rewrite !key_eqb_refl by assumption. simpl. rewrite key_eqb_refl by assumption.
    split; [reflexivity|]. intros k Hk. simpl. rewrite Hk. reflexivity.
  - destruct (Py.key_eqb (label it) k') eqn:E; simpl; rewrite E; simpl; rewrite ?E.
    + split; [reflexivity|]. intros k Hk.
      destruct (Py.key_eqb k k') eqn:E'; [|reflexivity].
      rewrite key_eqb_sym in E. rewrite (key_eqb_trans _ _ _ E' E) in Hk. discriminate.
    + split; [exact IH1|]. intros k Hk. rewrite (IH2 k Hk). reflexivity.
Qed.

Lemma key_eqb_str (s : string) (k : json) :
  Py.key_eqb (JStr s) k = true -> k = JStr s.
Proof.
  destruct k; simpl; try discriminate.
  intros H. apply String.eqb_eq in H. congruence.
Qed.

Lemma labelled_app (k : json) (l1 l2 : list failed_item) :
  labelled k (l1 ++ l2) = labelled k l1 ++ labelled k l2.
Proof. apply filter_app. Qed.

Lemma named_app (l1 l2 : list failed_item) : named (l1 ++ l2) = named l1 ++ named l2.
Proof. apply filter_app. Qed.

(** The failed items of a directory around one entry of one report: those
    of the files and entries before it, its own, those after it. *)
Lemma failed_items_around_entry
  (report_dir : string) (w : world) (fpath : string) (rm : list (string * json))
  (before after : list json) (test : json) (s1 s2 : list string) :
  sorted (glob_json w report_dir) = s1 ++ fpath :: s2 ->
  load_json w fpath = Loaded (JObj rm) ->
  Py.assoc "tests" rm = Some (JArr (before ++ test :: after)) ->
  failed_items_in w report_dir
  = items_of_tests (flat_map (file_tests w) s1 ++ before)
    ++ items_of_tests [test]
    ++ items_of_tests (after ++ flat_map (file_tests w) s2).
Proof.
  intros Hs Hl Ht. unfold failed_items_in, all_tests. rewrite Hs, flat_map_app.
  cbn [flat_map]. unfold file_tests at 2. rewrite Hl. cbn [report_tests]. rewrite Ht.
  rewrite <- !items_of_tests_app. f_equal.
  rewrite <- !app_assoc. reflexivity.
Qed.

(** C6. A test entry with status "fail" and no "pair" gives the failed item
    with label "unknown", an empty url and no file name; in the dict of pages it
    adds 1 to the count of the page "unknown", leaves its samples as they
    are and leaves every other page alone.  So it does in [collect_diffs]:
    when the entry stands among the tests of a report of the directory and
    the call returns, its item is among the failed items collected, at the
    place of the entry, and counts in [totalFailed]; the aggregate has a page
    "unknown" whose count is one more than the other failed items give it and
    whose samples are those the other failed items give it; every other page
    is as the other failed items give it. *)
Theorem fail_without_pair_counts_as_unknown
  (m : list (string * json)) (by_page : pydict) :
  Py.assoc "status" m = Some (JStr "fail") ->
  Py.assoc "pair" m = None ->
  failed_item_of (JObj m)
  = Ret (Some {| label := JStr "unknown"; url := JStr EmptyString; fileName := JNull;
                 mismatch := JNull; selectors := JNull |}) /\
  (exists by_page',
    add_item by_page unknown_item = Ret by_page' /\
    Dict.lookup (JStr "unknown") by_page'
    = Some {| page := page (entry_of (JStr "unknown") by_page);
              count := count (entry_of (JStr "unknown") by_page) + 1;
              samples := samples (entry_of (JStr "unknown") by_page) |} /\
    forall k, Py.key_eqb k (JStr "unknown") = false ->
              Dict.lookup k by_page' = Dict.lookup k by_page) /\
  forall (report_dir : string) (w w' : world) (agg : aggregate)
         (fpath : string) (rm : list (string * json))
         (before after : list json) (s1 s2 : list string),
    sorted (glob_json w report_dir) = s1 ++ fpath :: s2 ->
    load_json w fpath = Loaded (JObj rm) ->
    Py.assoc "tests" rm = Some (JArr (before ++ JObj m :: after)) ->
    collect_diffs report_dir w = (Ret agg, w') ->
    let pre := items_of_tests (flat_map (file_tests w) s1 ++ before) in
    let post := items_of_tests (after ++ flat_map (file_tests w) s2) in
    failed_items_in w report_dir = pre ++ unknown_item :: post /\
    totalFailed agg = List.length (pre ++ post) + 1 /\
    In {| page := JStr "unknown";
          count := count (page_summary_of (pre ++ post) (JStr "unknown")) + 1;
          samples := samples (page_summary_of (pre ++ post) (JStr "unknown")) |}
       (pages agg) /\
    forall ps, In ps (pages agg) ->
               Py.key_eqb (page ps) (JStr "unknown") = false ->
               ps = page_summary_of (pre ++ post) (page ps).
Proof.
  intros Hs Hp.
  assert (Hitem : failed_item_of (JObj m) = Ret (Some unknown_item)).
  { unfold failed_item_of. cbn [Py.get rbind]. rewrite Hs, Hp. reflexivity. }
  split; [exact Hitem|]. split.
  - destruct (add_item_lookup by_page unknown_item eq_refl) as [bp' [H1 [H2 H3]]].
    exists bp'. split; [exact H1|]. split; [|exact H3].
    change (label unknown_item) with (JStr "unknown") in H2.
    rewrite H2. unfold bump. cbn [fileName unknown_item Py.truthy].
    rewrite andb_false_r. reflexivity.
  - intros report_dir w w' agg fpath rm before after s1 s2 Hsort Hload Htests Hret.
    cbv zeta.
    set (pre := items_of_tests (flat_map (file_tests w) s1 ++ before)).
    set (post := items_of_tests (after ++ flat_map (file_tests w) s2)).
    assert (A : failed_items_in w report_dir = pre ++ unknown_item :: post).
    { rewrite (failed_items_around_entry _ _ _ _ _ _ _ _ _ Hsort Hload Htests).
      unfold items_of_tests at 2. cbn [flat_map]. rewrite Hitem. reflexivity. }
    apply pages_of_collect_diffs in Hret as [Hpages Htotal].
    rewrite A in Hpages, Htotal.
    assert (L : forall k,
               labelled k (pre ++ unknown_item :: post)
               = if Py.key_eqb (JStr "unknown") k
                 then labelled k pre ++ unknown_item :: labelled k post
                 else labelled k (pre ++ post)).
    { intros k. rewrite !labelled_app, labelled_cons.
      change (label unknown_item) with (JStr "unknown").
      destruct (Py.key_eqb (JStr "unknown") k); reflexivity. }
    split; [exact A|]. split; [|split].
    + rewrite Htotal, !length_app. cbn [List.length]. lia.
    + rewrite Hpages.
      assert (Hin : In (JStr "unknown")
                       (first_occurrences (map label (pre ++ unknown_item :: post)))).
      { assert (S : seen (JStr "unknown")
                         (first_occurrences (map label (pre ++ unknown_item :: post)))
                    = true).
        { rewrite first_occurrences_seen, map_app, seen_app. cbn [map seen existsb].
          change (label unknown_item) with (JStr "unknown").
          rewrite (key_eqb_refl (JStr "unknown")) by reflexivity.
          apply orb_true_r. }
        unfold seen in S. apply existsb_exists in S as [k [Hk E]].
        apply key_eqb_str in E. subst k. exact Hk. }
      apply (in_map (page_summary_of (pre ++ unknown_item :: post))) in Hin.
      replace (page_summary_of (pre ++ unknown_item :: post) (JStr "unknown"))
        with {| page := JStr "unknown";
                count := count (page_summary_of (pre ++ post) (JStr "unknown")) + 1;
                samples := samples (page_summary_of (pre ++ post) (JStr "unknown")) |}
        in Hin; [exact Hin|].
      unfold page_summary_of. cbn [count samples]. rewrite (L (JStr "unknown")).
      rewrite (key_eqb_refl (JStr "unknown")) by reflexivity.
      rewrite !labelled_app, !named_app, !length_app.
      cbn [List.length named filter fileName unknown_item Py.truthy].
      f_equal. lia.
    + intros ps Hin Hne. rewrite Hpages in Hin.
      apply in_map_iff in Hin as [k [<- _]]. cbn [page_summary_of page] in *.
      unfold page_summary_of. rewrite (L k), (key_eqb_sym (JStr "unknown") k), Hne.
      reflexivity.
Qed.

(** C9. A report whose "tests" member is absent or null has no test entry:
    its loop body never runs, it raises nothing, and the loop over the
    files goes on with the failed items it had. *)
Theorem report_without_tests_contributes_nothing (m : list (string * json)) :
  Py.assoc "tests" m = None \/ Py.assoc "tests" m = Some JNull ->
  items_of_report (JObj m) = Ret [] /\
  forall w fpath rest failed_items,
    load_json w fpath = Loaded (JObj m) ->
    load_reports (fpath :: rest) failed_items w = load_reports rest failed_items w.
Proof.
  intros H.
  assert (E : items_of_report (JObj m) = Ret []).
  { unfold items_of_report. cbn [Py.get rbind]. destruct H as [-> | ->]; reflexivity. }
  split; [exact E|].
  intros w f rest acc Hl. cbn [load_reports]. rewrite Hl, E.
  unfold bind, lift. rewrite app_nil_r. reflexivity.
Qed.


(** ** Exceptions of the script *)

Lemma rbind_ordinary {A B : Type} (r : result A) (k : A -> result B) :
  ordinary_result r -> (forall a, ordinary_result (k a)) ->
  ordinary_result (rbind r k).
Proof. destruct r; simpl; auto. Qed.

Lemma get_ordinary (v : json) (k : string) (d : json) : ordinary_result (Py.get v k d).
Proof. destruct v; simpl; auto. Qed.

Lemma failed_item_of_ordinary (test : json) : ordinary_result (failed_item_of test).
Proof.
  unfold failed_item_of.
  apply rbind_ordinary; [apply get_ordinary|intros status].
  destruct (Py.eq_str status "fail"); [|exact I].
  repeat (apply rbind_ordinary; [apply get_ordinary|intros ?]). exact I.
Qed.

Lemma collect_failed_ordinary (tests : list json) :
  ordinary_result (collect_failed tests).
Proof.
  induction tests as [|t r IH]; simpl; [exact I|].
  apply rbind_ordinary; [apply failed_item_of_ordinary|intros o].
  apply rbind_ordinary; [exact IH|intros its]. exact I.
Qed.

Lemma items_of_report_ordinary (data : json) : ordinary_result (items_of_report data).
Proof.
  unfold items_of_report.
  apply rbind_ordinary; [apply get_ordinary|intros tests].
  apply rbind_ordinary; [|intros l; apply collect_failed_ordinary].
  destruct (Py.or_ tests (JArr [])); simpl; auto.
Qed.

Lemma loaded_items_ordinary (w : world) (files : list string) :
  ordinary_result (loaded_items w files).
Proof.
  induction files as [|f r IH]; simpl; [exact I|].
  destruct (load_json w f); [|exact IH].
  apply rbind_ordinary; [apply items_of_report_ordinary|intros its].
  apply rbind_ordinary; [exact IH|intros more]. exact I.
Qed.

Lemma group_by_page_ordinary (items : list failed_item) :
  forall by_page, ordinary_result (group_by_page items by_page).
Proof.
  induction items as [|it r IH]; intros bp; simpl; [exact I|].
  apply rbind_ordinary; [|intros bp'; apply IH].
  unfold add_item. destruct (Py.hashable (label it)); simpl; auto.
Qed.

Lemma bind_no_exit {A B : Type} (m : M A) (k : A -> M B) :
  no_exit m -> (forall a, no_exit (k a)) -> no_exit (bind m k).
Proof.
  intros Hm Hk w. unfold bind. specialize (Hm w).
  destruct (m w) as [[a|e] w1]; simpl in *; [apply Hk|exact Hm].
Qed.

Lemma ret_no_exit {A : Type} (a : A) : no_exit (ret a).
Proof. intros w. exact I. Qed.

Lemma print_no_exit (line : string) : no_exit (print line).
Proof. intros w. exact I. Qed.

Lemma eprint_no_exit (line : string) : no_exit (eprint line).
Proof. intros w. exact I. Qed.

Lemma write_file_no_exit (path text : string) : no_exit (write_file path text).
Proof. intros w. unfold write_file. destruct (out_dir w); simpl; auto. Qed.

Lemma collect_diffs_no_exit (report_dir : string) : no_exit (collect_diffs report_dir).
Proof.
  intros w. rewrite collect_diffs_fst.
  destruct (glob_json w report_dir); [exact I|].
  apply rbind_ordinary; [apply loaded_items_ordinary|intros items].
  apply rbind_ordinary; [apply group_by_page_ordinary|intros bp].
  destruct (out_dir w); simpl; auto.
Qed.

Lemma sh_no_exit (cmd : string) (env : option string) (allow_fail : bool) :
  no_exit (sh cmd env allow_fail).
Proof.
  unfold sh.
  apply bind_no_exit; [apply print_no_exit|intros _].
  apply bind_no_exit; [intros w; exact I|intros code].
  apply bind_no_exit; [|intros _; apply ret_no_exit].
  destruct (_ && _); [apply eprint_no_exit|apply ret_no_exit].
Qed.

Lemma run_backstop_no_exit (url config : string) : no_exit (run_backstop url config).
Proof.
  unfold run_backstop. apply bind_no_exit; [apply sh_no_exit|intros code].
  destruct (negb _); [apply eprint_no_exit|apply ret_no_exit].
Qed.

Lemma collect_and_write_no_exit : no_exit collect_and_write.
Proof.
  unfold collect_and_write.
  apply bind_no_exit; [apply collect_diffs_no_exit|intros agg].
  apply bind_no_exit; [apply write_file_no_exit|intros _]. apply ret_no_exit.
Qed.

Lemma main_after_validation_no_exit
  (task_info : Type) (task_fields : string -> task_info)
  (build_packet_md : string -> task_info -> aggregate -> string -> bool ->
                     option (list (string * load_result)) -> string)
  (args : arguments) :
  no_exit (main_after_validation task_fields build_packet_md args).
Proof.
  unfold main_after_validation, parse_task_markdown.
  apply bind_no_exit; [|intros info].
  { apply bind_no_exit; [|intros text; apply ret_no_exit].
    intros w. simpl. destruct (read_text w (task args)); simpl; auto. }
  apply bind_no_exit; [apply run_backstop_no_exit|intros _].
  apply bind_no_exit; [apply collect_and_write_no_exit|intros agg].
  apply bind_no_exit; [|intros full].
  { destruct (include_full_json args); [|apply ret_no_exit].
    apply bind_no_exit; [intros w; exact I|intros l; apply ret_no_exit]. }
  apply bind_no_exit; [apply write_file_no_exit|intros _].
  apply bind_no_exit; [apply print_no_exit|intros _].
  destruct (open_report args); [|apply ret_no_exit].
  apply bind_no_exit; [apply sh_no_exit|intros _; apply ret_no_exit].
Qed.

Lemma exit_status_ordinary (r : result unit) :
  ordinary_result r -> exit_status r = 0%Z \/ exit_status r = 1%Z.
Proof. destruct r as [u|[]]; simpl; auto; discriminate. Qed.

(** C8. When the task file does not exist [main] prints a message and exits
    with status 2, having created the directory [out] and nothing else: no
    command was run and no file written.  When it exists the check lets the
    program go on with the rest of [main], whose exit status is 0 or 1,
    never 2. *)
Theorem task_file_check
  (task_info : Type) (task_fields : string -> task_info)
  (build_packet_md : string -> task_info -> aggregate -> string -> bool ->
                     option (list (string * load_result)) -> string)
  (args : arguments) (w : world) :
  (on_disk w (task args) = false ->
   main task_fields build_packet_md args w
   = (Raise (SystemExit 2),
      with_stderr ("Task file not found: " ++ task args)%string (with_out_dir true w)) /\
   exit_status (fst (main task_fields build_packet_md args w)) = 2%Z /\
   commands (snd (main task_fields build_packet_md args w)) = commands w /\
   file_text (snd (main task_fields build_packet_md args w)) = file_text w) /\
  (on_disk w (task args) = true ->
   validate_task_file (task args) (with_out_dir true w) = (Ret tt, with_out_dir true w) /\
   main task_fields build_packet_md args w
   = main_after_validation task_fields build_packet_md args (with_out_dir true w) /\
   (exit_status (fst (main task_fields build_packet_md args w)) = 0%Z \/
    exit_status (fst (main task_fields build_packet_md args w)) = 1%Z)).
Proof.
  split; intros H.
  - assert (E : main task_fields build_packet_md args w
                = (Raise (SystemExit 2),
                   with_stderr ("Task file not found: " ++ task args)%string
                               (with_out_dir true w))).
    { unfold main, bind, mkdir_out, validate_task_file. cbn [on_disk with_out_dir].
      rewrite H. reflexivity. }
    rewrite E. repeat split.
  - assert (V : validate_task_file (task args) (with_out_dir true w)
                = (Ret tt, with_out_dir true w)).
    { unfold validate_task_file. cbn [on_disk with_out_dir]. rewrite H. reflexivity. }
    assert (E : main task_fields build_packet_md args w
                = main_after_validation task_fields build_packet_md args
                                        (with_out_dir true w)).
    { unfold main, bind at 1 2, mkdir_out. rewrite V. reflexivity. }
    split; [exact V|]. split; [exact E|].
    rewrite E. apply exit_status_ordinary. apply main_after_validation_no_exit.
Qed.

(** ** The summary file *)

Lemma collect_diffs_writes (report_dir : string) (w w' : world) (agg : aggregate) :
  collect_diffs report_dir w = (Ret agg, w') ->
  glob_json w report_dir <> [] ->
  file_text w' DIFF_SUMMARY_PATH = Some (Json.dumps (json_of_aggregate agg)).
Proof.
  intros H G. apply collect_diffs_ret in H as [[G' _]|[_ [bp H]]]; [contradiction|].
  cbv zeta in H. destruct H as [_ [_ [_ [_ ->]]]]. reflexivity.
Qed.

(** C7, as the code has it. A call of [collect_diffs] that finds a report
    file and returns has replaced the text of the summary file by the JSON
    text, indented by 2, of the aggregate it returns.  A call that finds no
    report file returns the empty aggregate and leaves the world as it is.
    The call followed by the write of lines 237-238, as in [main], leaves the
    aggregate in the summary file in both cases, and returns whenever the
    call does and the directory [out] exists. *)
Theorem summary_is_persisted
  (report_dir : string) (w w' : world) (agg : aggregate) :
  (collect_diffs report_dir w = (Ret agg, w') ->
   (glob_json w report_dir <> [] ->
    file_text w' DIFF_SUMMARY_PATH = Some (Json.dumps (json_of_aggregate agg))) /\
   (glob_json w report_dir = [] -> agg = empty_aggregate /\ w' = w)) /\
  (collect_and_write w = (Ret agg, w') ->
   file_text w' DIFF_SUMMARY_PATH = Some (Json.dumps (json_of_aggregate agg))) /\
  (collect_diffs DEFAULT_REPORT_DIR w = (Ret agg, w') -> out_dir w = true ->
   exists w'', collect_and_write w = (Ret agg, w'')).
Proof.
  split; [|split].
  - intros H. split; [apply (collect_diffs_writes _ _ _ _ H)|].
    intros G. rewrite collect_diffs_no_files in H by assumption.
    injection H as <- <-. auto.
  - unfold collect_and_write, bind. intros H.
    destruct (collect_diffs DEFAULT_REPORT_DIR w) as [[a|e] w1]; [|discriminate].
    unfold write_file in H. destruct (out_dir w1); [|discriminate].
    unfold ret in H. injection H as <- <-. cbn [with_file file_text].
    rewrite String.eqb_refl. reflexivity.
  - intros H O. unfold collect_and_write, bind. rewrite H.
    assert (O' : out_dir w' = true).
    { apply collect_diffs_ret in H as [[_ [_ ->]]|[_ [bp H]]]; [exact O|].
      cbv zeta in H. destruct H as [_ [_ [_ [_ ->]]]]. exact O. }
    unfold write_file. rewrite O'. eexists. reflexivity.
Qed.

(** C7, as stated, fails: with no report file and a summary left by an
    earlier run, [collect_diffs] returns the empty aggregate and the summary
    file keeps its old text. *)
Lemma collect_diffs_keeps_stale_summary :
  exists agg w',
    collect_diffs DEFAULT_REPORT_DIR stale_world = (Ret agg, w') /\
    file_text w' DIFF_SUMMARY_PATH = Some "stale"%string /\
    file_text w' DIFF_SUMMARY_PATH <> Some (Json.dumps (json_of_aggregate agg)).
Proof.
  exists empty_aggregate, stale_world.
  split; [reflexivity|]. split; [reflexivity|].
  vm_compute. discriminate.
Qed.

(** ** [collect_diffs] returns on shaped reports only *)

Lemma failed_item_of_ret_shaped (test : json) (o : option failed_item) :
  failed_item_of test = Ret o ->
  (forall it, o = Some it -> Py.hashable (label it) = true) ->
  entry_shaped test = true.
Proof.
  destruct test as [| | | |l|m]; try discriminate.
  unfold entry_shaped, failed_item_of. cbn [Py.get rbind].
  destruct (Py.eq_str _ "fail"); [|reflexivity].
  destruct (Py.assoc "pair" m) as [[| | | |l|pm]|]; try discriminate; [|reflexivity].
  cbn [Py.get rbind]. intros H Hh. apply andb_true_iff. split.
  - destruct (Py.assoc "diff" pm) as [d|]; [|reflexivity].
    unfold Py.or_ in H. destruct (Py.truthy d); [|reflexivity].
    destruct d; try discriminate. reflexivity.
  - destruct (Py.get _ "misMatchPercentage" JNull) as [x|e]; [|discriminate].
    cbn [rbind] in H. injection H as <-.
    specialize (Hh _ eq_refl). cbn [label] in Hh.
    destruct (Py.assoc "label" pm) as [l|]; [|reflexivity].
    unfold Py.or_ in Hh. destruct (Py.truthy l); [|reflexivity]. exact Hh.
Qed.

Lemma collect_failed_ret_shaped (tests : list json) :
  forall its,
    collect_failed tests = Ret its ->
    Forall (fun it => Py.hashable (label it) = true) its ->
    forallb entry_shaped tests = true.
Proof.
  induction tests as [|t r IH]; intros its H Hall; simpl in *; [reflexivity|].
  destruct (failed_item_of t) as [o|e] eqn:E; [|discriminate]. simpl in H.
  destruct (collect_failed r) as [its'|e]; [|discriminate]. simpl in H.
  injection H as <-. apply andb_true_iff. split.
  - apply (failed_item_of_ret_shaped _ _ E). intros it ->.
    apply Forall_inv in Hall. exact Hall.
  - apply (IH its' eq_refl). destruct o; [apply Forall_inv_tail in Hall|]; exact Hall.
Qed.

Lemma items_of_report_ret_shaped (data : json) (its : list failed_item) :
  items_of_report data = Ret its ->
  Forall (fun it => Py.hashable (label it) = true) its ->
  report_shaped data = true.
Proof.
  destruct data as [| | | |l|m]; try discriminate.
  unfold report_shaped, items_of_report. cbn [Py.get rbind].
  destruct (Py.assoc "tests" m) as [t|]; [|reflexivity].
  destruct t as [|[|]|n|[|c s]|[|x l]|[|[k x] l]]; simpl; intros H Hall;
    try discriminate; try reflexivity.
  - unfold Py.or_ in H. simpl in H. destruct (n =? 0)%Z; [reflexivity|discriminate].
  - change (forallb entry_shaped (x :: l) = true).
    apply (collect_failed_ret_shaped (x :: l) _ H Hall).
Qed.

Lemma loaded_items_ret_shaped (w : world) (files : list string) :
  forall items,
    loaded_items w files = Ret items ->
    Forall (fun it => Py.hashable (label it) = true) items ->
    forall fpath data, In fpath files -> load_json w fpath = Loaded data ->
                       report_shaped data = true.
Proof.
  induction files as [|f r IH]; intros items H Hall g data Hin Hg; [destruct Hin|].
  simpl in H. destruct (load_json w f) as [d|e] eqn:E.
  - destruct (items_of_report d) as [its|x] eqn:Ei; [|discriminate]. simpl in H.
    destruct (loaded_items w r) as [more|x] eqn:Er; [|discriminate]. simpl in H.
    injection H as <-. apply Forall_app in Hall as [H1 H2].
    destruct Hin as [->|Hin].
    + rewrite E in Hg. injection Hg as <-.
      apply (items_of_report_ret_shaped _ _ Ei H1).
    + apply (IH more eq_refl H2 g data Hin Hg).
  - destruct Hin as [->|Hin]; [congruence|].
    apply (IH items H Hall g data Hin Hg).
Qed.

Lemma group_by_page_ret_hashable (items : list failed_item) :
  forall by_page by_page',
    group_by_page items by_page = Ret by_page' ->
    Forall (fun it => Py.hashable (label it) = true) items.
Proof.
  induction items as [|it r IH]; intros bp bp' H; [constructor|].
  simpl in H. unfold add_item in H.
  destruct (Py.hashable (label it)) eqn:Hh; [|discriminate].
  simpl in H. constructor; [exact Hh|]. apply (IH _ _ H).
Qed.

(** [collect_diffs] returns an aggregate exactly when the reports that can
    be read have the expected shape and, if there is a report file, the
    directory [out] exists. *)
Lemma collect_diffs_returns_iff (report_dir : string) (w : world) :
  (exists agg w', collect_diffs report_dir w = (Ret agg, w')) <->
  (reports_shaped w report_dir /\
   (glob_json w report_dir <> [] -> out_dir w = true)).
Proof.
  split.
  - intros [agg [w' H]].
    apply collect_diffs_ret in H as [[G _]|[_ [bp H]]].
    + split; [|contradiction]. intros f data Hin. rewrite G in Hin. destruct Hin.
    + cbv zeta in H. destruct H as [L [Gp [_ [O _]]]].
      split; [|intros _; exact O].
      intros f data Hin Hl.
      apply (loaded_items_ret_shaped _ _ _ L (group_by_page_ret_hashable _ _ _ Gp) f data);
        [|exact Hl].
      eapply Permutation_in; [symmetry; apply sorted_perm|exact Hin].
  - intros [Hs Ho]. apply collect_diffs_returns; assumption.
Qed.

(** * The scenarios, run *)

Example scenario_1_runs :
  fst (collect_diffs "reports" scenario_1) = Ret scenario_1_aggregate.
Proof. reflexivity. Qed.

Example scenario_2_runs :
  fst (collect_diffs "reports" scenario_2)
  = Ret {| pages := [{| page := JStr "pricing"; count := 7;
                        samples := [JStr "p1.png"; JStr "p2.png"; JStr "p3.png";
                                    JStr "p4.png"; JStr "p5.png"] |}];
           totalFailed := 7 |}.
Proof. reflexivity. Qed.

Example scenario_3_runs :
  fst (collect_diffs "reports" scenario_3) = Ret scenario_3_aggregate /\
  stderr (snd (collect_diffs "reports" scenario_3))
  = ["Failed to read report reports/c.json: Expecting value: line 1 column 1 (char 0)"%string].
Proof. split; reflexivity. Qed.

Example scenario_4_runs :
  fst (collect_diffs "reports" scenario_4)
  = Ret {| pages := [{| page := JStr "unknown"; count := 1; samples := [] |}];
           totalFailed := 1 |}.
Proof. reflexivity. Qed.

Example scenario_5_runs :
  collect_diffs "reports" scenario_5 = (Ret {| pages := []; totalFailed := 0 |}, scenario_5).
Proof. reflexivity. Qed.

(** The text written for the empty aggregate. *)
Example empty_aggregate_text :
  Json.dumps (json_of_aggregate empty_aggregate)
  = ("{" ++ Json.newline
     ++ "  " ++ Json.quote ++ "pages" ++ Json.quote ++ ": []," ++ Json.newline
     ++ "  " ++ Json.quote ++ "totalFailed" ++ Json.quote ++ ": 0" ++ Json.newline
     ++ "}")%string.
Proof. reflexivity. Qed.

(** [True] and [1] are one dict key; the page keeps the first of them. *)
Example true_and_one_share_a_page :
  group_by_page
    [{| label := JBool true; url := JStr EmptyString; fileName := JStr "a.png";
        mismatch := JNull; selectors := JNull |};
     {| label := JNum 1; url := JStr EmptyString; fileName := JNull;
        mismatch := JNull; selectors := JNull |}] []
  = Ret [(JBool true, {| page := JBool true; count := 2; samples := [JStr "a.png"] |})].
Proof. reflexivity. Qed.

(** A "pair" that is present but null is not a missing "pair". *)
Example null_pair_raises :
  failed_item_of (JObj [("status"%string, JStr "fail"); ("pair"%string, JNull)])
  = Raise AttributeError.
Proof. reflexivity. Qed.

(** A label that is a list cannot be a dict key. *)
Example list_label_raises :
  fst (collect_diffs "reports"
         (disk [("reports/a.json"%string,
                 report [JObj [("status"%string, JStr "fail");
                               ("pair"%string,
                                JObj [("label"%string, JArr [JStr "home"])])]])]))
  = Raise TypeError.
Proof. reflexivity. Qed.

(** * Instances of the claims *)

(** C1 on scenario 3: two failed items, two pages of one item each. *)
Lemma totalFailed_is_sum_of_counts_witness :
  collect_diffs "reports" scenario_3
  = (Ret scenario_3_aggregate, snd (collect_diffs "reports" scenario_3)) /\
  totalFailed scenario_3_aggregate = sum_counts (pages scenario_3_aggregate) /\
  totalFailed scenario_3_aggregate = List.length (failed_items_in scenario_3 "reports").
Proof.
  split; [reflexivity|].
  apply (totalFailed_is_sum_of_counts "reports" scenario_3
           (snd (collect_diffs "reports" scenario_3)) scenario_3_aggregate).
  reflexivity.
Defined.

(** C2 on the page "home" of scenario 1. *)
Lemma samples_bounded_count_exact_witness :
  collect_diffs "reports" scenario_1
  = (Ret scenario_1_aggregate, snd (collect_diffs "reports" scenario_1)) /\
  In home_summary (pages scenario_1_aggregate) /\
  List.length (samples home_summary) <= 5 /\
  count home_summary
  = List.length (labelled (JStr "home") (failed_items_in scenario_1 "reports")) /\
  List.length (samples home_summary) = count home_summary.
Proof.
  assert (R : collect_diffs "reports" scenario_1
              = (Ret scenario_1_aggregate, snd (collect_diffs "reports" scenario_1)))
    by reflexivity.
  assert (I : In home_summary (pages scenario_1_aggregate)) by (left; reflexivity).
  destruct (samples_bounded_count_exact "reports" scenario_1 _ scenario_1_aggregate
              home_summary R I) as [H1 [H2 H3]].
  split; [exact R|]. split; [exact I|]. split; [exact H1|]. split; [exact H2|].
  apply H3.
  - simpl. lia.
  - intros it Hin. vm_compute in Hin.
    destruct Hin as [<-|[<-|[]]]; reflexivity.
Defined.

(** C3 on scenario 3: [b.json] is listed first, [a.json] is read first. *)
Lemma pages_in_first_occurrence_order_witness :
  collect_diffs "reports" scenario_3
  = (Ret scenario_3_aggregate, snd (collect_diffs "reports" scenario_3)) /\
  sorted (glob_json scenario_3 "reports")
  = ["reports/a.json"; "reports/b.json"; "reports/c.json"]%string /\
  map page (pages scenario_3_aggregate) = [JStr "home"; JStr "pricing"] /\
  map page (pages scenario_3_aggregate)
  = first_occurrences
      (map label
         (items_of_tests
            (flat_map (file_tests scenario_3) (sorted (glob_json scenario_3 "reports"))))).
Proof.
  split; [reflexivity|]. split; [reflexivity|]. split; [reflexivity|].
  apply (pages_in_first_occurrence_order "reports" scenario_3
           (snd (collect_diffs "reports" scenario_3)) scenario_3_aggregate).
  reflexivity.
Defined.

(** C4 on a directory whose tests all pass. *)
Lemma no_failures_empty_aggregate_witness :
  exists w',
    collect_diffs "reports" all_passing = (Ret {| pages := []; totalFailed := 0 |}, w').
Proof.
  apply (no_failures_empty_aggregate "reports" all_passing).
  - intros fpath data Hin Hl. vm_compute in Hin.
    destruct Hin as [<-|[<-|[<-|[]]]]; vm_compute in Hl;
      try discriminate; injection Hl as <-; reflexivity.
  - intros _. reflexivity.
Defined.

(** C5 on scenario 3 and its report that is not JSON. *)
Lemma unreadable_report_is_skipped_witness :
  load_json scenario_3 "reports/c.json"
  = Unreadable "Expecting value: line 1 column 1 (char 0)" /\
  out_dir scenario_3 = true /\
  fst (collect_diffs "reports" scenario_3)
  = fst (collect_diffs "reports" (without_file "reports/c.json" scenario_3)).
Proof.
  split; [reflexivity|]. split; [reflexivity|].
  apply (unreadable_report_is_skipped "reports" "reports/c.json"
           "Expecting value: line 1 column 1 (char 0)" scenario_3); reflexivity.
Defined.

(** C6 when the page "unknown" already counts three failures, and in a
    directory where the entry stands between other failures, one of them a
    failure of the page "unknown" with a file name. *)
Lemma fail_without_pair_counts_as_unknown_witness :
  failed_item_of (JObj pairless_failure) = Ret (Some unknown_item) /\
  (exists by_page',
    add_item [(JStr "unknown", {| page := JStr "unknown"; count := 3;
                                  samples := [JStr "u.png"] |})] unknown_item
    = Ret by_page' /\
    Dict.lookup (JStr "unknown") by_page'
    = Some {| page := JStr "unknown"; count := 4; samples := [JStr "u.png"] |}) /\
  collect_diffs "reports" scenario_4_among_others
  = (Ret scenario_4_among_others_aggregate,
     snd (collect_diffs "reports" scenario_4_among_others)) /\
  totalFailed scenario_4_among_others_aggregate = 4 + 1 /\
  In {| page := JStr "unknown"; count := 1 + 1; samples := [JStr "u.png"] |}
     (pages scenario_4_among_others_aggregate).
Proof.
  destruct (fail_without_pair_counts_as_unknown
              pairless_failure
              [(JStr "unknown", {| page := JStr "unknown"; count := 3;
                                   samples := [JStr "u.png"] |})]
              eq_refl eq_refl) as [H1 [[bp' [H2 [H3 _]]] H4]].
  assert (R : collect_diffs "reports" scenario_4_among_others
              = (Ret scenario_4_among_others_aggregate,
                 snd (collect_diffs "reports" scenario_4_among_others)))
    by reflexivity.
  destruct (H4 "reports"%string scenario_4_among_others
               (snd (collect_diffs "reports" scenario_4_among_others))
               scenario_4_among_others_aggregate
               "reports/a.json"%string
               [("testSuite"%string, JStr "BackstopJS");
                ("tests"%string,
                 JArr ([failing_test "home" "home_0.png"; unlabelled_failure "u.png"]
                       ++ JObj pairless_failure :: [failing_test "home" "home_1.png"]))]
               [failing_test "home" "home_0.png"; unlabelled_failure "u.png"]
               [failing_test "home" "home_1.png"]
               [] ["reports/b.json"%string]
               eq_refl eq_refl eq_refl R) as [_ [T [U _]]].
  split; [exact H1|]. split; [exists bp'; split; [exact H2|exact H3]|].
  split; [exact R|]. split; [exact T|exact U].
Defined.

(** C7 on scenario 1, on the empty directory and on the stale summary. *)
Lemma summary_is_persisted_witness :
  file_text (snd (collect_diffs "reports" scenario_1)) DIFF_SUMMARY_PATH
  = Some (Json.dumps (json_of_aggregate scenario_1_aggregate)) /\
  snd (collect_diffs "reports" scenario_5) = scenario_5 /\
  file_text (snd (collect_and_write stale_world)) DIFF_SUMMARY_PATH
  = Some (Json.dumps (json_of_aggregate empty_aggregate)) /\
  exists w'', collect_and_write stale_world = (Ret empty_aggregate, w'').
Proof.
  destruct (summary_is_persisted "reports" scenario_1
              (snd (collect_diffs "reports" scenario_1)) scenario_1_aggregate)
    as [A _].
  destruct (summary_is_persisted "reports" scenario_5
              (snd (collect_diffs "reports" scenario_5)) empty_aggregate)
    as [B _].
  destruct (summary_is_persisted DEFAULT_REPORT_DIR stale_world
              (snd (collect_and_write stale_world)) empty_aggregate)
    as [_ [C _]].
  destruct (summary_is_persisted DEFAULT_REPORT_DIR stale_world stale_world
              empty_aggregate)
    as [_ [_ D]].
  split; [|split; [|split]].
  - apply (A eq_refl). discriminate.
  - apply (B eq_refl). reflexivity.
  - apply C. reflexivity.
  - apply D; reflexivity.
Defined.

(** C8 with a task file that is missing and with one that exists. *)
Lemma task_file_check_witness :
  on_disk scenario_1 "missing.md" = false /\
  exit_status (fst (main (fun _ : string => tt)
                         (fun _ _ _ _ _ _ => "packet"%string)
                         (demo_arguments "missing.md") scenario_1)) = 2%Z /\
  commands (snd (main (fun _ : string => tt)
                      (fun _ _ _ _ _ _ => "packet"%string)
                      (demo_arguments "missing.md") scenario_1)) = [] /\
  on_disk scenario_1 "task.md" = true /\
  (exit_status (fst (main (fun _ : string => tt)
                          (fun _ _ _ _ _ _ => "packet"%string)
                          (demo_arguments "task.md") scenario_1)) = 0%Z \/
   exit_status (fst (main (fun _ : string => tt)
                          (fun _ _ _ _ _ _ => "packet"%string)
                          (demo_arguments "task.md") scenario_1)) = 1%Z).
Proof.
  destruct (task_file_check unit (fun _ : string => tt)
              (fun _ _ _ _ _ _ => "packet"%string)
              (demo_arguments "missing.md") scenario_1) as [Hmissing _].
  destruct (task_file_check unit (fun _ : string => tt)
              (fun _ _ _ _ _ _ => "packet"%string)
              (demo_arguments "task.md") scenario_1) as [_ Hpresent].
  destruct (Hmissing eq_refl) as [_ [H2 [H3 _]]].
  destruct (Hpresent eq_refl) as [_ [_ H6]].
  split; [reflexivity|]. split; [exact H2|]. split; [exact H3|].
  split; [reflexivity|exact H6].
Defined.

(** C9 on a report without "tests" and on one whose "tests" is null. *)
Lemma report_without_tests_contributes_nothing_witness :
  Py.assoc "tests" [("testSuite"%string, JStr "BackstopJS")] = None /\
  items_of_report (JObj [("testSuite"%string, JStr "BackstopJS")]) = Ret [] /\
  items_of_report (JObj [("tests"%string, JNull)]) = Ret [].
Proof.
  split; [reflexivity|]. split.
  - apply (report_without_tests_contributes_nothing
             [("testSuite"%string, JStr "BackstopJS")]). left. reflexivity.
  - apply (report_without_tests_contributes_nothing [("tests"%string, JNull)]).
    right. reflexivity.
Defined.


(** * Further properties of [collect_diffs] *)

Lemma warnings_rev (w : world) (files : list string) :
  forall log, warnings w files log = rev (unreadable_warnings w files) ++ log.
Proof.
  induction files as [|f r IH]; intros log; [reflexivity|].
  cbn [warnings unreadable_warnings flat_map].
  destruct (load_json w f) as [data|e].
  - apply IH.
  - rewrite IH. cbn [app]. fold (warning_line f e).
    change (warning_line f e :: flat_map _ r)
      with ([warning_line f e] ++ unreadable_warnings w r).
    rewrite rev_app_distr. cbn [rev app]. rewrite <- app_assoc. reflexivity.
Qed.

Lemma unreadable_warnings_lines (w : world) (files : list string) :
  Forall (fun line => exists fpath e, line = warning_line fpath e)
         (unreadable_warnings w files).
Proof.
  induction files as [|f r IH]; [constructor|].
  cbn [unreadable_warnings flat_map]. destruct (load_json w f) as [data|e]; [exact IH|].
  constructor; [exists f, e; reflexivity|exact IH].
Qed.

(** Whatever its outcome, the loop over the files only adds warnings to the
    error stream. *)
Lemma load_reports_world (files : list string) :
  forall failed_items w,
  exists added,
    snd (load_reports files failed_items w) = logged (added ++ stderr w) w /\
    Forall (fun line => exists fpath e, line = warning_line fpath e) added.
Proof.
  induction files as [|f r IH]; intros acc w; cbn [load_reports].
  - exists []. split; [|constructor]. unfold ret. cbn [snd app].
    rewrite logged_stderr. reflexivity.
  - destruct (load_json w f) as [data|e] eqn:E.
    + unfold bind, lift. destruct (items_of_report data) as [its|x].
      * apply IH.
      * exists []. split; [|constructor]. cbn [snd app].
        rewrite logged_stderr. reflexivity.
    + unfold bind, eprint. cbv beta iota.
      destruct (IH acc (with_stderr ("Failed to read report " ++ f ++ ": " ++ e) w))
        as [added [H1 H2]].
      exists (added ++ [warning_line f e]). split.
      * rewrite H1. rewrite <- app_assoc. reflexivity.
      * apply Forall_app. split; [exact H2|].
        constructor; [exists f, e; reflexivity|constructor].
Qed.

(** The world after [collect_diffs]: the error stream has grown by
    warnings and, at most, the summary file has a new text. *)
Lemma collect_diffs_world (report_dir : string) (w : world) :
  exists added,
    Forall (fun line => exists fpath e, line = warning_line fpath e) added /\
    (snd (collect_diffs report_dir w) = logged (added ++ stderr w) w \/
     exists text,
       snd (collect_diffs report_dir w)
       = with_file DIFF_SUMMARY_PATH text (logged (added ++ stderr w) w)).
Proof.
  destruct (glob_json w report_dir) as [|f0 fs] eqn:G.
  - exists []. split; [constructor|]. left.
    rewrite collect_diffs_no_files by assumption. cbn [snd app].
    rewrite logged_stderr. reflexivity.
  - rewrite collect_diffs_some_files by (rewrite G; discriminate).
    destruct (load_reports_world (sorted (glob_json w report_dir)) [] w)
      as [added [H1 H2]].
    exists added. split; [exact H2|].
    unfold bind.
    destruct (load_reports (sorted (glob_json w report_dir)) [] w) as [[items|e] w1].
    + cbn [snd] in H1. subst w1. unfold lift.
      destruct (group_by_page items []) as [bp|e]; [|left; reflexivity].
      unfold write_file. cbn [out_dir logged].
      destruct (out_dir w); [right; eexists; reflexivity|left; reflexivity].
    + cbn [snd] in H1. subst w1. left. reflexivity.
Qed.

Lemma loaded_items_agree (w1 w2 : world) (files : list string) :
  (forall fpath, In fpath files -> load_json w1 fpath = load_json w2 fpath) ->
  loaded_items w1 files = loaded_items w2 files.
Proof.
  induction files as [|f r IH]; intros H; cbn [loaded_items]; [reflexivity|].
  rewrite (H f) by (left; reflexivity).
  rewrite IH by (intros; apply H; right; assumption). reflexivity.
Qed.

Lemma sum_counts_at_least (l : list page_summary) :
  Forall (fun ps => 1 <= count ps) l -> List.length l <= sum_counts l.
Proof.
  induction 1 as [|ps l H _ IH]; [apply le_n|].
  unfold sum_counts in *. simpl. lia.
Qed.

(** X1. The aggregate a call returns is a function of the failed items: one
    page summary per label, in the order of first occurrence, each with the
    number of failed items of that label and the first five of their
    non-empty file names, in their order; [totalFailed] is the number of
    failed items. *)
Theorem aggregate_is_specified
  (report_dir : string) (w w' : world) (agg : aggregate) :
  collect_diffs report_dir w = (Ret agg, w') ->
  agg = {| pages := map (fun k =>
                           {| page := k;
                              count := List.length
                                         (labelled k (failed_items_in w report_dir));
                              samples := firstn 5
                                           (map fileName
                                                (named (labelled k
                                                   (failed_items_in w report_dir)))) |})
                        (first_occurrences
                           (map label (failed_items_in w report_dir)));
           totalFailed := List.length (failed_items_in w report_dir) |}.
Proof.
  intros H. apply pages_of_collect_diffs in H as [Hp Ht].
  destruct agg as [ps n]. cbn [pages totalFailed] in *. subst. reflexivity.
Qed.

(** X2. Every page summary of a returned aggregate counts at least one
    failure and has no more samples than failures; so the aggregate has no
    more pages than failures. *)
Theorem every_page_has_a_failure
  (report_dir : string) (w w' : world) (agg : aggregate) :
  collect_diffs report_dir w = (Ret agg, w') ->
  Forall (fun ps => 1 <= count ps /\ List.length (samples ps) <= count ps) (pages agg) /\
  List.length (pages agg) <= totalFailed agg.
Proof.
  intros H.
  assert (Hall : Forall (fun ps => 1 <= count ps /\
                                   List.length (samples ps) <= count ps) (pages agg)).
  { pose proof (pages_of_collect_diffs _ _ _ _ H) as [Hp _].
    apply collect_diffs_ret in H as [[_ [-> _]]|[_ [bp H]]]; [constructor|].
    cbv zeta in H. destruct H as [_ [Gp _]].
    apply group_by_page_ret_hashable in Gp. rewrite Forall_forall in Gp.
    rewrite Hp. apply Forall_forall. intros ps Hin.
    apply in_map_iff in Hin as [k [<- Hk]]. cbn [page_summary_of count samples].
    apply first_occurrences_incl in Hk. apply in_map_iff in Hk as [it [<- Hit]].
    split.
    - assert (Hin : In it (labelled (label it) (failed_items_in w report_dir))).
      { apply filter_In. split; [exact Hit|]. apply key_eqb_refl. apply Gp. exact Hit. }
      destruct (labelled (label it) (failed_items_in w report_dir));
        [destruct Hin|cbn [List.length]; lia].
    - rewrite length_firstn, length_map. unfold named.
      pose proof (filter_length_le (fun it0 => Py.truthy (fileName it0))
                    (labelled (label it) (failed_items_in w report_dir))).
      lia. }
  split; [exact Hall|].
  assert (Hs : totalFailed agg = sum_counts (pages agg)).
  { apply collect_diffs_ret in H as [[_ [-> _]]|[_ [bp H]]]; [reflexivity|].
    cbv zeta in H. destruct H as [_ [Hg [-> _]]].
    apply group_by_page_sum in Hg. simpl in *. lia. }
  rewrite Hs. apply sum_counts_at_least.
  eapply Forall_impl; [|exact Hall]. intros ps [H1 _]. exact H1.
Qed.

(** X3. In a returned aggregate no two page summaries have equal labels,
    every failed item has its label among the pages, and every page is the
    label of a failed item. *)
Theorem pages_partition_the_labels
  (report_dir : string) (w w' : world) (agg : aggregate) :
  collect_diffs report_dir w = (Ret agg, w') ->
  distinct (map page (pages agg)) /\
  (forall it, In it (failed_items_in w report_dir) ->
              seen (label it) (map page (pages agg)) = true) /\
  (forall ps, In ps (pages agg) ->
              exists it, In it (failed_items_in w report_dir) /\ label it = page ps).
Proof.
  intros H.
  assert (Hm : map page (pages agg)
               = first_occurrences (map label (failed_items_in w report_dir))).
  { pose proof (pages_of_collect_diffs _ _ _ _ H) as [-> _].
    rewrite map_map. cbn [page_summary_of page]. apply map_id. }
  split; [|split].
  - rewrite Hm. apply first_occurrences_distinct.
  - intros it Hit. rewrite Hm, first_occurrences_seen.
    assert (Hh : Py.hashable (label it) = true).
    { apply collect_diffs_ret in H as [[G _]|[_ [bp H]]].
      - unfold failed_items_in, all_tests in Hit. rewrite G in Hit. destruct Hit.
      - cbv zeta in H. destruct H as [_ [Gp _]].
        apply group_by_page_ret_hashable in Gp. rewrite Forall_forall in Gp. auto. }
    unfold seen. apply existsb_exists. exists (label it).
    split; [apply in_map; exact Hit|apply key_eqb_refl; exact Hh].
  - intros ps Hin. apply (in_map page) in Hin. rewrite Hm in Hin.
    apply first_occurrences_incl in Hin. apply in_map_iff in Hin as [it [E Hit]].
    exists it. auto.
Qed.

(** X4. The order in which the operating system lists the report files is
    irrelevant: two listings of the same paths give the same outcome. *)
Theorem listing_order_is_irrelevant (report_dir : string) (w1 w2 : world) :
  Permutation (glob_json w1 report_dir) (glob_json w2 report_dir) ->
  (forall fpath, In fpath (glob_json w1 report_dir) ->
                 load_json w1 fpath = load_json w2 fpath) ->
  out_dir w1 = out_dir w2 ->
  fst (collect_diffs report_dir w1) = fst (collect_diffs report_dir w2).
Proof.
  intros P L O. rewrite !collect_diffs_fst.
  assert (S : sorted (glob_json w1 report_dir) = sorted (glob_json w2 report_dir)).
  { apply sorted_unique; try apply sorted_sorted.
    rewrite !sorted_perm. exact P. }
  rewrite <- S, <- O.
  rewrite <- (loaded_items_agree w1 w2 (sorted (glob_json w1 report_dir))).
  - destruct (glob_json w1 report_dir) as [|a l1] eqn:G1;
      destruct (glob_json w2 report_dir) as [|b l2] eqn:G2; try reflexivity.
    + apply Permutation_nil in P. discriminate.
    + symmetry in P. apply Permutation_nil in P. discriminate.
  - intros f Hin. apply L. eapply Permutation_in; [apply sorted_perm|exact Hin].
Qed.

(** X5. Whether it returns or raises, [collect_diffs] writes nothing on the
    standard output, runs no command, leaves every file other than the
    summary as it is, does not change what it finds on disk, and only adds
    lines to the error stream. *)
Theorem collect_diffs_touches_only_summary_and_stderr
  (report_dir : string) (w : world) :
  stdout (snd (collect_diffs report_dir w)) = stdout w /\
  commands (snd (collect_diffs report_dir w)) = commands w /\
  out_dir (snd (collect_diffs report_dir w)) = out_dir w /\
  same_inputs w (snd (collect_diffs report_dir w)) /\
  same_files_but_summary w (snd (collect_diffs report_dir w)) /\
  exists added, stderr (snd (collect_diffs report_dir w)) = added ++ stderr w.
Proof.
  destruct (collect_diffs_world report_dir w) as [added [_ [E | [text E]]]];
    rewrite E;
    (split; [reflexivity|]; split; [reflexivity|]; split; [reflexivity|];
     split; [repeat split|]; split; [|exists added; reflexivity]);
    intros p Hp; cbn [with_file logged file_text]; [reflexivity|].
  destruct (String.eqb_spec p DIFF_SUMMARY_PATH); [contradiction|reflexivity].
Qed.

(** X6. A call that returns has written one warning for each report file
    that could not be read, in the order in which the files were taken, and
    nothing else, on the error stream. *)
Theorem one_warning_per_unreadable_report
  (report_dir : string) (w w' : world) (agg : aggregate) :
  collect_diffs report_dir w = (Ret agg, w') ->
  stderr w'
  = rev (unreadable_warnings w (sorted (glob_json w report_dir))) ++ stderr w.
Proof.
  intros H. apply collect_diffs_ret in H as [[G [_ ->]]|[_ [bp H]]].
  - rewrite G. reflexivity.
  - cbv zeta in H. destruct H as [_ [_ [_ [_ ->]]]].
    cbn [with_file logged stderr]. apply warnings_rev.
Qed.

(** X8. The grouping uses the label and the file name of a failed item and
    nothing else: the url, the mismatch and the selectors never change a
    page summary. *)
Theorem summary_ignores_passthrough_fields (l1 : list failed_item) :
  forall l2 by_page,
    map label l1 = map label l2 ->
    map fileName l1 = map fileName l2 ->
    group_by_page l1 by_page = group_by_page l2 by_page.
Proof.
  induction l1 as [|a l1 IH]; intros [|b l2] bp Hl Hf; try discriminate;
    [reflexivity|].
  cbn [map] in Hl, Hf. injection Hl as Hl1 Hl2. injection Hf as Hf1 Hf2.
  cbn [group_by_page].
  assert (E : add_item bp a = add_item bp b).
  { unfold add_item, bump. rewrite Hl1, Hf1. reflexivity. }
  rewrite E. destruct (add_item bp b) as [bp'|e]; [|reflexivity].
  cbn [rbind]. apply IH; assumption.
Qed.

Lemma collect_diffs_raise_files (report_dir : string) (w w' : world) (e : exn) :
  collect_diffs report_dir w = (Raise e, w') -> file_text w' = file_text w.
Proof.
  intros H. destruct (glob_json w report_dir) as [|f0 fs] eqn:G.
  - rewrite collect_diffs_no_files in H by assumption. discriminate.
  - rewrite collect_diffs_some_files in H by (rewrite G; discriminate).
    destruct (load_reports_world (sorted (glob_json w report_dir)) [] w)
      as [added [H1 _]].
    unfold bind in H.
    destruct (load_reports (sorted (glob_json w report_dir)) [] w) as [[items|x] w1];
      cbn [snd] in H1; subst w1.
    + unfold lift in H. destruct (group_by_page items []) as [bp|x].
      * unfold write_file in H. cbn [out_dir logged] in H.
        destruct (out_dir w); [discriminate|]. injection H as _ <-. reflexivity.
      * injection H as _ <-. reflexivity.
    + injection H as _ <-. reflexivity.
Qed.

(** X9. A call that raises has written no file, and raises
    [AttributeError], [TypeError] or, only when the directory [out] is
    missing, [OSError]. *)
Theorem failed_call_writes_nothing
  (report_dir : string) (w w' : world) (e : exn) :
  collect_diffs report_dir w = (Raise e, w') ->
  file_text w' = file_text w /\
  (e = AttributeError \/ e = TypeError \/ (e = OSError /\ out_dir w = false)).
Proof.
  intros H. split.
  - apply (collect_diffs_raise_files _ _ _ _ H).
  - assert (F : fst (collect_diffs report_dir w) = Raise e) by (rewrite H; reflexivity).
    rewrite collect_diffs_fst in F.
    destruct (glob_json w report_dir) as [|f0 fs]; [discriminate|].
    assert (K : forall A (r : result A) x,
               r = Raise x -> (forall y, r = Raise y -> y = AttributeError \/ y = TypeError) ->
               x = AttributeError \/ x = TypeError) by (intros; eauto).
    destruct (loaded_items w (sorted (f0 :: fs))) as [items|x] eqn:L.
    + cbn [rbind] in F. destruct (group_by_page items []) as [bp|x] eqn:Gp.
      * cbn [rbind] in F. destruct (out_dir w); [discriminate|].
        injection F as <-. right. right. auto.
      * cbn [rbind] in F. injection F as <-.
        assert (x = TypeError); [|auto].
        clear -Gp. revert Gp. generalize (@nil (json * page_summary)).
        induction items as [|it r IH]; intros bp0 Gp; [discriminate|].
        cbn [group_by_page] in Gp. unfold add_item in Gp.
        destruct (Py.hashable (label it)); cbn [rbind] in Gp; [eauto|congruence].
    + cbn [rbind] in F. injection F as <-.
      assert (Hget : forall v k d y, Py.get v k d = Raise y -> y = AttributeError)
        by (intros [] k d y Hy; simpl in Hy; congruence).
      assert (Hitem : forall t y, failed_item_of t = Raise y -> y = AttributeError).
      { intros t y. unfold failed_item_of.
        repeat match goal with
               | |- rbind ?r _ = Raise _ -> _ =>
                 let E := fresh "E" in
                 destruct r eqn:E; cbn [rbind]; [|intros [= <-]; eauto]
               | |- (if ?b then _ else _) = Raise _ -> _ => destruct b
               end; discriminate. }
      assert (Hcf : forall l y, collect_failed l = Raise y -> y = AttributeError).
      { induction l as [|t r IHl]; intros y; cbn [collect_failed]; [discriminate|].
        destruct (failed_item_of t) eqn:E; cbn [rbind]; [|intros [= <-]; eauto].
        destruct (collect_failed r) eqn:E'; cbn [rbind]; [discriminate|].
        intros [= <-]. eauto. }
      assert (Hrep : forall data y, items_of_report data = Raise y ->
                                    y = AttributeError \/ y = TypeError).
      { intros data y. unfold items_of_report.
        destruct (Py.get data "tests" (JArr [])) eqn:E; cbn [rbind];
          [|intros [= <-]; left; eauto].
        destruct (Py.iter (Py.or_ a (JArr []))) eqn:E'; cbn [rbind].
        - intros Hy. left. eauto.
        - intros [= <-]. right. destruct (Py.or_ a (JArr [])); simpl in E'; congruence. }
      clear -L Hrep. revert x L.
      induction (sorted (f0 :: fs)) as [|f r IH]; intros x L; [discriminate|].
      cbn [loaded_items] in L. destruct (load_json w f) as [data|m]; [|eauto].
      destruct (items_of_report data) eqn:E; cbn [rbind] in L.
      * destruct (loaded_items w r) eqn:E'; cbn [rbind] in L; [discriminate|].
        injection L as <-. eauto.
      * injection L as <-. destruct (Hrep _ _ E); auto.
Qed.


(** * The rest of the script *)

(** ** Relations kept by every step *)

Lemma keeps_bind {A B : Type} (R : world -> world -> Prop) (m : M A) (k : A -> M B) :
  (forall a b c, R a b -> R b c -> R a c) ->
  keeps R m -> (forall a, keeps R (k a)) -> keeps R (bind m k).
Proof.
  intros T Hm Hk w. unfold bind. specialize (Hm w).
  destruct (m w) as [[a|e] w1]; cbn [snd] in *; [|exact Hm].
  eapply T; [exact Hm|apply Hk].
Qed.

Lemma prefix_append (p s : string) : String.prefix p (p ++ s) = true.
Proof.
  induction p as [|c p IH]; cbn [String.append String.prefix].
  - destruct s; reflexivity.
  - destruct (Ascii.ascii_dec c c) as [_|N]; [exact IH|contradiction].
Qed.

Lemma grows_by_refl (P : string -> Prop) (l : list string) : grows_by P l l.
Proof. exists []. split; [reflexivity|constructor]. Qed.

Lemma grows_by_trans (P : string -> Prop) (a b c : list string) :
  grows_by P a b -> grows_by P b c -> grows_by P a c.
Proof.
  intros [x [-> Hx]] [y [-> Hy]]. exists (y ++ x). split.
  - rewrite app_assoc. reflexivity.
  - apply Forall_app. auto.
Qed.

Lemma grows_by_cons (P : string -> Prop) (line : string) (l : list string) :
  P line -> grows_by P l (line :: l).
Proof. intros H. exists [line]. split; [reflexivity|]. constructor; [exact H|constructor]. Qed.

(** ** [sh] and [run_backstop] *)

Lemma sh_allowed_to_fail (cmd : string) (env : option string) (w : world) :
  sh cmd env true w
  = (Ret (return_code w cmd env), with_command cmd (with_stdout ("+ " ++ cmd)%string w)).
Proof.
  unfold sh, bind, print, ret. cbn [return_code with_stdout].
  rewrite andb_false_r. reflexivity.
Qed.

Lemma run_backstop_run (site_url backstop_config : string) (w : world) :
  run_backstop site_url backstop_config w
  = (Ret tt, after_backstop site_url backstop_config w).
Proof.
  unfold run_backstop, bind. fold (backstop_command backstop_config).
  rewrite sh_allowed_to_fail. unfold after_backstop. cbv zeta.
  destruct (negb _); reflexivity.
Qed.

(** [sh] never raises and returns the return code of the command,
    which it has run once and echoed on the standard output; it writes on
    the error stream exactly when the code is not 0 and [allow_fail] is
    off, and it writes no file. *)
Lemma sh_reports_failure_unless_allowed
  (cmd : string) (env : option string) (allow_fail : bool) (w : world) :
  let code := return_code w cmd env in
  fst (sh cmd env allow_fail w) = Ret code /\
  commands (snd (sh cmd env allow_fail w)) = cmd :: commands w /\
  stdout (snd (sh cmd env allow_fail w)) = ("+ " ++ cmd)%string :: stdout w /\
  stderr (snd (sh cmd env allow_fail w))
  = (if negb (code =? 0)%Z && negb allow_fail
     then ("Command failed with code " ++ str_of_int code)%string :: stderr w
     else stderr w) /\
  file_text (snd (sh cmd env allow_fail w)) = file_text w.
Proof.
  cbv zeta. unfold sh, bind, print, ret. cbn [return_code with_stdout].
  destruct (negb (return_code w cmd env =? 0)%Z && negb allow_fail);
    repeat split; reflexivity.
Qed.

(** X12. [run_backstop] returns normally whatever the exit code of
    BackstopJS: it runs the one test command, writes no file, and writes on
    the error stream only when the code is neither 0 nor 1; the message of
    [sh] for a failed command is never written. *)
Theorem run_backstop_never_fails (site_url backstop_config : string) (w : world) :
  let cmd := backstop_command backstop_config in
  let code := return_code w cmd (Some site_url) in
  fst (run_backstop site_url backstop_config w) = Ret tt /\
  commands (snd (run_backstop site_url backstop_config w)) = cmd :: commands w /\
  stderr (snd (run_backstop site_url backstop_config w))
  = (if (code =? 0)%Z || (code =? 1)%Z
     then stderr w
     else ("Backstop returned unexpected exit code: " ++ str_of_int code)%string
          :: stderr w) /\
  file_text (snd (run_backstop site_url backstop_config w)) = file_text w /\
  out_dir (snd (run_backstop site_url backstop_config w)) = out_dir w.
Proof.
  cbv zeta. rewrite run_backstop_run. unfold after_backstop. cbv zeta.
  destruct (_ || _); repeat split; reflexivity.
Qed.

(** ** [read_backstop_full_json] *)

Lemma has_slash_append (a b : string) :
  has_slash (a ++ b) = has_slash a || has_slash b.
Proof.
  induction a as [|c a IH]; cbn [String.append has_slash]; [reflexivity|].
  rewrite IH. apply orb_assoc.
Qed.

Lemma basename_after_slash (dir name : string) :
  has_slash name = false -> basename (dir ++ "/" ++ name) = name.
Proof.
  intros H. induction dir as [|c dir IH]; cbn [String.append basename].
  - rewrite H. reflexivity.
  - rewrite has_slash_append. cbn [String.append has_slash Ascii.eqb Bool.eqb].
    rewrite orb_true_r. exact IH.
Qed.

Lemma string_app_assoc (a b c : string) : ((a ++ b) ++ c = a ++ (b ++ c))%string.
Proof.
  induction a as [|x a IH]; cbn [String.append]; [reflexivity|].
  rewrite IH. reflexivity.
Qed.

(** X13. [read_backstop_full_json] never raises, prints nothing and lists
    every report found, readable or not, in sorted order; when the paths
    found are [dir/name] for names without a slash, the entries carry these
    names, in sorted order, each with what its file loads as. *)
Theorem full_json_lists_every_report
  (report_dir dir : string) (names : list string) (w : world) :
  glob_json w report_dir = map (fun name => (dir ++ "/" ++ name)%string) names ->
  Forall (fun name => has_slash name = false) names ->
  read_backstop_full_json report_dir w
  = (Ret (map (fun name => (name, load_json w (dir ++ "/" ++ name)%string))
              (sorted names)), w).
Proof.
  intros G Hn. unfold read_backstop_full_json. f_equal. f_equal.
  assert (S : sorted (glob_json w report_dir)
              = map (String.append (dir ++ "/")) (sorted names)).
  { rewrite G. rewrite <- sorted_prefix. f_equal. apply map_ext.
    intros name. symmetry. apply string_app_assoc. }
  rewrite S, map_map. apply map_ext_in. intros name Hin.
  rewrite string_app_assoc, basename_after_slash; [reflexivity|].
  rewrite Forall_forall in Hn. apply Hn.
  eapply Permutation_in; [apply sorted_perm|exact Hin].
Qed.

(** ** [main] *)

Lemma after_backstop_fields (site_url backstop_config : string) (w : world) :
  same_inputs w (after_backstop site_url backstop_config w) /\
  out_dir (after_backstop site_url backstop_config w) = out_dir w /\
  file_text (after_backstop site_url backstop_config w) = file_text w /\
  commands (after_backstop site_url backstop_config w)
  = backstop_command backstop_config :: commands w /\
  stdout (after_backstop site_url backstop_config w)
  = ("+ " ++ backstop_command backstop_config)%string :: stdout w.
Proof.
  unfold after_backstop. cbv zeta. destruct (negb _); repeat split; reflexivity.
Qed.

Lemma failed_items_in_ext (report_dir : string) (w w' : world) :
  same_inputs w w' -> failed_items_in w' report_dir = failed_items_in w report_dir.
Proof.
  intros [G [L _]]. unfold failed_items_in, all_tests, file_tests. rewrite G, L.
  reflexivity.
Qed.

Lemma reports_shaped_ext (report_dir : string) (w w' : world) :
  same_inputs w w' -> reports_shaped w report_dir -> reports_shaped w' report_dir.
Proof.
  intros [G [L _]] H f data. rewrite G, L. apply H.
Qed.

Lemma full_json_of_ext (report_dir : string) (w w' : world) :
  same_inputs w w' -> full_json_of w' report_dir = full_json_of w report_dir.
Proof. intros [G [L _]]. unfold full_json_of. rewrite G, L. reflexivity. Qed.

Lemma same_inputs_trans (a b c : world) :
  same_inputs a b -> same_inputs b c -> same_inputs a c.
Proof.
  unfold same_inputs. intros [A1 [A2 [A3 [A4 A5]]]] [B1 [B2 [B3 [B4 B5]]]].
  repeat split; congruence.
Qed.

Lemma collect_diffs_fields (report_dir : string) (w : world) :
  same_inputs w (snd (collect_diffs report_dir w)) /\
  out_dir (snd (collect_diffs report_dir w)) = out_dir w /\
  commands (snd (collect_diffs report_dir w)) = commands w /\
  stdout (snd (collect_diffs report_dir w)) = stdout w /\
  grows_by script_error_line (stderr w) (stderr (snd (collect_diffs report_dir w))).
Proof.
  destruct (collect_diffs_world report_dir w) as [added [Ha [E | [text E]]]];
    rewrite E;
    (split; [repeat split|]; split; [reflexivity|]; split; [reflexivity|];
     split; [reflexivity|]);
    (exists added; split; [reflexivity|]);
    (eapply Forall_impl; [|exact Ha]); intros line [f [e ->]]; left;
    apply prefix_append.
Qed.

Section MainProperties.

Variable task_info : Type.
Variable task_fields : string -> task_info.
Variable build_packet_md :
  string -> task_info -> aggregate -> string -> bool ->
  option (list (string * load_result)) -> string.

Lemma main_after_validation_run
  (args : arguments) (w w2 : world) (text : string) (agg : aggregate) :
  read_text w (task args) = Some text ->
  collect_diffs DEFAULT_REPORT_DIR
    (after_backstop (site_url args) (backstop_config args) w) = (Ret agg, w2) ->
  out_dir w = true ->
  main_after_validation task_fields build_packet_md args w
  = (Ret tt, after_main (packet_of task_fields build_packet_md args text w) agg (open_report args) w2).
Proof.
  intros Hr Hc Ho.
  pose proof (after_backstop_fields (site_url args) (backstop_config args) w)
    as [I1 [O1 _]].
  pose proof (collect_diffs_fields DEFAULT_REPORT_DIR
                (after_backstop (site_url args) (backstop_config args) w))
    as [I2 [O2 _]].
  rewrite Hc in I2, O2. cbn [snd] in I2, O2.
  assert (O : out_dir w2 = true) by congruence.
  assert (I : same_inputs w w2) by (eapply same_inputs_trans; eassumption).
  assert (A : agg = aggregate_of (failed_items_in w DEFAULT_REPORT_DIR)).
  { pose proof (pages_of_collect_diffs _ _ _ _ Hc) as [Hp Ht].
    rewrite (failed_items_in_ext _ _ _ I1) in Hp, Ht.
    destruct agg as [ps n]. cbn [pages totalFailed] in *. subst. reflexivity. }
  unfold main_after_validation, parse_task_markdown, collect_and_write.
  unfold bind at 1 2. rewrite Hr. unfold ret at 1. cbv beta iota.
  unfold bind at 1. rewrite run_backstop_run.
  unfold bind at 1 2. rewrite Hc.
  unfold bind at 1, write_file at 1. rewrite O. unfold ret at 1. cbv beta iota.
  unfold packet_of, after_main. cbv zeta. rewrite <- A.
  destruct (include_full_json args).
  - unfold bind at 1 2, read_backstop_full_json, ret at 1. cbv beta iota.
    fold (full_json_of (with_file DIFF_SUMMARY_PATH (Json.dumps (json_of_aggregate agg)) w2)
                       DEFAULT_REPORT_DIR).
    rewrite (full_json_of_ext DEFAULT_REPORT_DIR w
               (with_file DIFF_SUMMARY_PATH (Json.dumps (json_of_aggregate agg)) w2))
      by exact I.
    unfold bind at 1, write_file at 1. cbn [out_dir with_file]. rewrite O.
    unfold bind at 1, print. cbv beta iota.
    destruct (open_report args); [|reflexivity].
    unfold bind. rewrite sh_allowed_to_fail. reflexivity.
  - unfold bind at 1, ret at 1. cbv beta iota.
    unfold bind at 1, write_file at 1. cbn [out_dir with_file]. rewrite O.
    unfold bind at 1, print. cbv beta iota.
    destruct (open_report args); [|reflexivity].
    unfold bind. rewrite sh_allowed_to_fail. reflexivity.
Qed.

Lemma main_from_validation (args : arguments) (w : world) :
  on_disk w (task args) = true ->
  main task_fields build_packet_md args w
  = main_after_validation task_fields build_packet_md args (with_out_dir true w).
Proof.
  intros H. unfold main, bind at 1 2, mkdir_out, validate_task_file.
  cbn [on_disk with_out_dir]. rewrite H. reflexivity.
Qed.

(** X14. When the task file exists and can be read and the reports have the
    expected shape, [main] ends normally, with exit status 0, whatever the
    exit code of BackstopJS.  The summary file then holds the JSON text of
    the aggregate of the failed items, the packet file holds the packet built
    from the task text, that aggregate and, on request, the list of the
    reports; the test command was run once, before the report viewer if that
    was asked for, and the line naming the packet was printed in between. *)
Theorem main_success (args : arguments) (w : world) (text : string) :
  on_disk w (task args) = true ->
  read_text w (task args) = Some text ->
  reports_shaped w DEFAULT_REPORT_DIR ->
  exists w',
    main task_fields build_packet_md args w = (Ret tt, w') /\
    exit_status (fst (main task_fields build_packet_md args w)) = 0%Z /\
    file_text w' DIFF_SUMMARY_PATH
    = Some (Json.dumps (json_of_aggregate
                          (aggregate_of (failed_items_in w DEFAULT_REPORT_DIR)))) /\
    file_text w' PACKET_PATH = Some (packet_of task_fields build_packet_md args text w) /\
    commands w'
    = (if open_report args then ["npx backstop openReport"%string] else [])
      ++ backstop_command (backstop_config args) :: commands w /\
    stdout w'
    = (if open_report args then ["+ npx backstop openReport"%string] else [])
      ++ ("Wrote: " ++ PACKET_PATH)%string
      :: ("+ " ++ backstop_command (backstop_config args))%string :: stdout w.
Proof.
  intros Hd Hr Hs.
  set (w0 := with_out_dir true w).
  set (w1 := after_backstop (site_url args) (backstop_config args) w0).
  pose proof (after_backstop_fields (site_url args) (backstop_config args) w0)
    as [I1 [O1 [F1 [C1 S1]]]]. fold w1 in I1, O1, F1, C1, S1.
  assert (I0 : same_inputs w w0) by (repeat split).
  destruct (collect_diffs_returns DEFAULT_REPORT_DIR w1) as [agg [w2 Hc]].
  { eapply reports_shaped_ext; [exact I1|].
    eapply reports_shaped_ext; [exact I0|exact Hs]. }
  { intros _. rewrite O1. reflexivity. }
  pose proof (collect_diffs_fields DEFAULT_REPORT_DIR w1) as [_ [_ [C2 [S2 _]]]].
  rewrite Hc in C2, S2. cbn [snd] in C2, S2.
  assert (E : main task_fields build_packet_md args w
              = (Ret tt, after_main (packet_of task_fields build_packet_md args text w0) agg (open_report args) w2)).
  { rewrite main_from_validation by exact Hd.
    apply main_after_validation_run; [exact Hr|exact Hc|reflexivity]. }
  assert (A : agg = aggregate_of (failed_items_in w DEFAULT_REPORT_DIR)).
  { pose proof (pages_of_collect_diffs _ _ _ _ Hc) as [Hp Ht].
    rewrite (failed_items_in_ext _ _ _ I1) in Hp, Ht.
    rewrite (failed_items_in_ext _ _ _ I0) in Hp, Ht.
    destruct agg as [ps n]. cbn [pages totalFailed] in *. subst. reflexivity. }
  assert (P : packet_of task_fields build_packet_md args text w0 = packet_of task_fields build_packet_md args text w).
  { unfold packet_of. rewrite (failed_items_in_ext _ _ _ I0),
                              (full_json_of_ext _ _ _ I0). reflexivity. }
  rewrite E, P, <- A. eexists. split; [reflexivity|]. split; [reflexivity|].
  unfold after_main. cbv zeta.
  destruct (open_report args);
    cbn [file_text commands stdout with_command with_stdout with_file app];
    rewrite C2, S2, C1, S1; repeat split; reflexivity.
Qed.

(** X15. When the task file exists but cannot be read, [main] stops with
    exit status 1 right after creating the directory [out]: BackstopJS is not
    run, nothing is printed and no file is written. *)
Theorem main_stops_on_unreadable_task (args : arguments) (w : world) :
  on_disk w (task args) = true ->
  read_text w (task args) = None ->
  main task_fields build_packet_md args w = (Raise OSError, with_out_dir true w) /\
  exit_status (fst (main task_fields build_packet_md args w)) = 1%Z.
Proof.
  intros Hd Hr.
  assert (E : main task_fields build_packet_md args w
              = (Raise OSError, with_out_dir true w)).
  { rewrite main_from_validation by exact Hd.
    unfold main_after_validation, parse_task_markdown, bind at 1 2.
    cbn [read_text with_out_dir]. rewrite Hr. reflexivity. }
  rewrite E. split; reflexivity.
Qed.

(** X16. When the task file can be read but a report that loads has not the
    expected shape, [main] runs BackstopJS, then stops with exit status 1
    without writing the summary or the packet. *)
Theorem main_stops_on_malformed_report (args : arguments) (w : world) (text : string) :
  on_disk w (task args) = true ->
  read_text w (task args) = Some text ->
  ~ reports_shaped w DEFAULT_REPORT_DIR ->
  exit_status (fst (main task_fields build_packet_md args w)) = 1%Z /\
  file_text (snd (main task_fields build_packet_md args w)) = file_text w /\
  commands (snd (main task_fields build_packet_md args w))
  = backstop_command (backstop_config args) :: commands w.
Proof.
  intros Hd Hr Hs.
  set (w0 := with_out_dir true w).
  set (w1 := after_backstop (site_url args) (backstop_config args) w0).
  pose proof (after_backstop_fields (site_url args) (backstop_config args) w0)
    as [I1 [O1 [F1 [C1 S1]]]]. fold w1 in I1, O1, F1, C1, S1.
  assert (I0 : same_inputs w0 w) by (repeat split).
  assert (I1' : same_inputs w1 w0).
  { destruct I1 as [A1 [A2 [A3 [A4 A5]]]]. repeat split; congruence. }
  destruct (collect_diffs DEFAULT_REPORT_DIR w1) as [[agg|e] w2] eqn:Hc.
  { exfalso. apply Hs.
    eapply reports_shaped_ext; [exact I0|].
    eapply reports_shaped_ext; [exact I1'|].
    apply (proj1 (collect_diffs_returns_iff DEFAULT_REPORT_DIR w1)).
    exists agg, w2. exact Hc. }
  assert (E : main task_fields build_packet_md args w = (Raise e, w2)).
  { rewrite main_from_validation by exact Hd.
    unfold main_after_validation, parse_task_markdown, collect_and_write.
    unfold bind at 1 2. cbn [read_text with_out_dir]. rewrite Hr.
    unfold ret at 1. cbv beta iota.
    unfold bind at 1. rewrite run_backstop_run.
    unfold bind at 1 2. fold w0. fold w1. rewrite Hc. reflexivity. }
  rewrite E. cbn [fst snd].
  pose proof (collect_diffs_no_exit DEFAULT_REPORT_DIR w1) as Ne.
  rewrite Hc in Ne. cbn [fst ordinary_result] in Ne.
  pose proof (collect_diffs_fields DEFAULT_REPORT_DIR w1) as [_ [_ [C2 _]]].
  rewrite Hc in C2. cbn [snd] in C2.
  split; [|split].
  - destruct e; try reflexivity. discriminate.
  - rewrite (collect_diffs_raise_files _ _ _ _ Hc), F1. reflexivity.
  - rewrite C2, C1. reflexivity.
Qed.

Lemma script_step_refl (w : world) : script_step w w.
Proof. split; [auto|apply grows_by_refl]. Qed.

Lemma script_step_trans (a b c : world) :
  script_step a b -> script_step b c -> script_step a c.
Proof.
  intros [O1 G1] [O2 G2]. split; [auto|]. eapply grows_by_trans; eassumption.
Qed.

Lemma script_step_same (w w' : world) :
  out_dir w' = out_dir w -> stderr w' = stderr w -> script_step w w'.
Proof.
  intros O E. split; [congruence|]. rewrite E. apply grows_by_refl.
Qed.

Lemma sh_step (cmd : string) (env : option string) : keeps script_step (sh cmd env true).
Proof. intros w. rewrite sh_allowed_to_fail. apply script_step_same; reflexivity. Qed.

Lemma run_backstop_step (site_url backstop_config : string) :
  keeps script_step (run_backstop site_url backstop_config).
Proof.
  intros w. rewrite run_backstop_run. unfold after_backstop. cbv zeta. cbn [snd].
  destruct (negb _); [|apply script_step_same; reflexivity].
  split; [auto|]. apply grows_by_cons. right. left. apply prefix_append.
Qed.

Lemma write_file_step (path text : string) : keeps script_step (write_file path text).
Proof.
  intros w. unfold write_file. destruct (out_dir w) eqn:O; cbn [snd];
    [|apply script_step_refl].
  apply script_step_same; reflexivity.
Qed.

Lemma collect_diffs_step (report_dir : string) :
  keeps script_step (collect_diffs report_dir).
Proof.
  intros w. pose proof (collect_diffs_fields report_dir w) as [_ [O [_ [_ G]]]].
  split; [congruence|exact G].
Qed.

Lemma main_after_validation_step (args : arguments) :
  keeps script_step (main_after_validation task_fields build_packet_md args).
Proof.
  pose proof script_step_trans as T.
  assert (R : forall A (a : A), keeps script_step (ret a))
    by (intros A a w; apply script_step_refl).
  unfold main_after_validation, parse_task_markdown, collect_and_write.
  apply keeps_bind; [exact T| |intros info].
  { apply keeps_bind; [exact T| |intros x; apply R].
    intros w. apply script_step_refl. }
  apply keeps_bind; [exact T|apply run_backstop_step|intros _].
  apply keeps_bind; [exact T| |intros agg].
  { apply keeps_bind; [exact T|apply collect_diffs_step|intros a].
    apply keeps_bind; [exact T|apply write_file_step|intros _; apply R]. }
  apply keeps_bind; [exact T| |intros full].
  { destruct (include_full_json args); [|apply R].
    apply keeps_bind; [exact T| |intros l; apply R].
    intros w. apply script_step_refl. }
  apply keeps_bind; [exact T|apply write_file_step|intros _].
  apply keeps_bind; [exact T| |intros _].
  { intros w. apply script_step_same; reflexivity. }
  destruct (open_report args); [|apply R].
  apply keeps_bind; [exact T|apply sh_step|intros _; apply R].
Qed.

(** X17. However [main] ends, the directory [out] exists afterwards, and
    every line it has added to the error stream is a warning for an
    unreadable report, the notice of an unexpected BackstopJS exit code or the
    notice of a missing task file: the failure message of [sh] is never
    written, both calls of [sh] being allowed to fail. *)
Theorem main_error_stream_and_out_dir (args : arguments) (w : world) :
  out_dir (snd (main task_fields build_packet_md args w)) = true /\
  grows_by script_error_line
           (stderr w) (stderr (snd (main task_fields build_packet_md args w))).
Proof.
  destruct (on_disk w (task args)) eqn:Hd.
  - rewrite main_from_validation by exact Hd.
    destruct (main_after_validation_step args (with_out_dir true w)) as [O G].
    split; [apply O; reflexivity|exact G].
  - assert (E : main task_fields build_packet_md args w
                = (Raise (SystemExit 2),
                   with_stderr ("Task file not found: " ++ task args)%string
                               (with_out_dir true w))).
    { unfold main, bind, mkdir_out, validate_task_file. cbn [on_disk with_out_dir].
      rewrite Hd. reflexivity. }
    rewrite E. split; [reflexivity|].
    apply grows_by_cons. right. right. apply prefix_append.
Qed.

End MainProperties.

(** * The lists of [parse_task_markdown] *)

Example labels_of_line_example :
  labels_of_line " bug, needs review ,, ui " = ["bug"; "needs review"; "ui"]%string.
Proof. reflexivity. Qed.

Example expected_pages_of_line_example :
  expected_pages_of_line "/pricing, /home   /about," = ["/pricing"; "/home"; "/about"]%string.
Proof. reflexivity. Qed.

Example re_split_example :
  Str.re_split " a, b " = [EmptyString; "a"; "b"; EmptyString]%string.
Proof. reflexivity. Qed.

Lemma all_chars_lstrip (p : ascii -> bool) (s : string) :
  Str.all_chars p s = true -> Str.all_chars p (Str.lstrip s) = true.
Proof.
  induction s as [|c r IH]; cbn [Str.lstrip Str.all_chars]; [auto|].
  intros H. destruct (Str.isspace c); [|exact H].
  apply andb_true_iff in H as [_ H]. auto.
Qed.

Lemma all_chars_rstrip (p : ascii -> bool) (s : string) :
  Str.all_chars p s = true -> Str.all_chars p (Str.rstrip s) = true.
Proof.
  induction s as [|c r IH]; cbn [Str.rstrip Str.all_chars]; [auto|].
  intros H. apply andb_true_iff in H as [Hc H]. specialize (IH H).
  destruct (Str.rstrip r) as [|c' r'].
  - destruct (Str.isspace c); cbn [Str.all_chars]; [reflexivity|].
    rewrite Hc. reflexivity.
  - cbn [Str.all_chars] in *. rewrite Hc. exact IH.
Qed.

Lemma all_chars_strip (p : ascii -> bool) (s : string) :
  Str.all_chars p s = true -> Str.all_chars p (Str.strip s) = true.
Proof. intros H. apply all_chars_rstrip, all_chars_lstrip, H. Qed.

Lemma rstrip_rstrip (s : string) : Str.rstrip (Str.rstrip s) = Str.rstrip s.
Proof.
  induction s as [|c r IH]; [reflexivity|]. cbn [Str.rstrip].
  destruct (Str.rstrip r) as [|c' r'] eqn:E.
  - destruct (Str.isspace c) eqn:S; [reflexivity|].
    cbn [Str.rstrip]. rewrite S. reflexivity.
  - change (Str.rstrip (String c (String c' r'))) with
      (match Str.rstrip (String c' r') with
       | EmptyString => if Str.isspace c then EmptyString else String c EmptyString
       | String a b => String c (String a b)
       end).
    rewrite IH. reflexivity.
Qed.

Lemma lstrip_rstrip_lstrip (s : string) :
  Str.lstrip (Str.rstrip (Str.lstrip s)) = Str.rstrip (Str.lstrip s).
Proof.
  induction s as [|c r IH]; [reflexivity|]. cbn [Str.lstrip].
  destruct (Str.isspace c) eqn:S; [exact IH|].
  cbn [Str.rstrip]. destruct (Str.rstrip r); rewrite ?S; cbn [Str.lstrip];
    rewrite S; reflexivity.
Qed.

Lemma strip_strip (s : string) : Str.strip (Str.strip s) = Str.strip s.
Proof.
  unfold Str.strip. rewrite lstrip_rstrip_lstrip. apply rstrip_rstrip.
Qed.

Lemma split_pieces (sep : ascii) (s : string) :
  Forall (fun p => Str.all_chars (fun c => negb (Ascii.eqb c sep)) p = true)
         (Str.split sep s) /\ Str.split sep s <> [].
Proof.
  induction s as [|c r [IH N]]; cbn [Str.split].
  - split; [repeat constructor|discriminate].
  - destruct (Ascii.eqb c sep) eqn:E.
    + split; [constructor; [reflexivity|exact IH]|discriminate].
    + destruct (Str.split sep r) as [|p ps]; [contradiction|].
      split; [|discriminate].
      apply Forall_cons_iff in IH as [Hp Hps].
      constructor; [|exact Hps]. cbn [Str.all_chars]. rewrite E, Hp. reflexivity.
Qed.

Lemma re_split_pieces (s : string) :
  forall in_run,
    Forall (fun p => Str.all_chars (fun c => negb (Str.is_sep c)) p = true)
           (Str.re_split_from in_run s) /\ Str.re_split_from in_run s <> [].
Proof.
  induction s as [|c r IH]; intros in_run; cbn [Str.re_split_from].
  - split; [repeat constructor|discriminate].
  - destruct (Str.is_sep c) eqn:E.
    + destruct in_run; [apply IH|].
      split; [constructor; [reflexivity|apply IH]|discriminate].
    + destruct (IH false) as [H N].
      destruct (Str.re_split_from false r) as [|p ps]; [contradiction|].
      split; [|discriminate].
      apply Forall_cons_iff in H as [Hp Hps].
      constructor; [|exact Hps]. cbn [Str.all_chars]. rewrite E, Hp. reflexivity.
Qed.

Lemma nonempty_neq (s : string) : Str.nonempty s = true -> s <> EmptyString.
Proof. destruct s; [discriminate|discriminate]. Qed.

(** X18. Every label of line 132 is not empty, has no white space at
    either end and holds no comma, whatever the line of labels. *)
Theorem labels_are_clean (labels_line : string) :
  Forall clean_label (labels_of_line labels_line).
Proof.
  unfold labels_of_line. apply Forall_forall. intros l Hin.
  apply in_map_iff in Hin as [s [<- Hs]]. apply filter_In in Hs as [Hs Hne].
  split; [apply nonempty_neq; exact Hne|]. split; [apply strip_strip|].
  apply all_chars_strip.
  destruct (split_pieces "," labels_line) as [H _].
  rewrite Forall_forall in H. apply H. exact Hs.
Qed.

(** X19. Every expected page of line 134 is not empty and holds neither a
    comma nor a white space, whatever the line of expected pages. *)
Theorem expected_pages_are_words (expected_line : string) :
  Forall (fun p => p <> EmptyString /\
                   Str.all_chars (fun c => negb (Str.is_sep c)) p = true)
         (expected_pages_of_line expected_line).
Proof.
  unfold expected_pages_of_line. apply Forall_forall. intros l Hin.
  apply in_map_iff in Hin as [s [<- Hs]]. apply filter_In in Hs as [Hs Hne].
  split; [apply nonempty_neq; exact Hne|].
  apply all_chars_strip.
  destruct (re_split_pieces expected_line false) as [H _].
  rewrite Forall_forall in H. apply H. exact Hs.
Qed.

Lemma split_without_sep (sep : ascii) (l : string) :
  Str.all_chars (fun c => negb (Ascii.eqb c sep)) l = true -> Str.split sep l = [l].
Proof.
  induction l as [|c l IH]; cbn [Str.split Str.all_chars]; [reflexivity|].
  intros H. apply andb_true_iff in H as [Hc H]. apply negb_true_iff in Hc.
  rewrite Hc, (IH H). reflexivity.
Qed.

Lemma split_at_sep (sep : ascii) (l r : string) :
  Str.all_chars (fun c => negb (Ascii.eqb c sep)) l = true ->
  Str.split sep (l ++ String sep r) = l :: Str.split sep r.
Proof.
  induction l as [|c l IH]; cbn [String.append Str.split Str.all_chars].
  - intros _. rewrite Ascii.eqb_refl. reflexivity.
  - intros H. apply andb_true_iff in H as [Hc H]. apply negb_true_iff in Hc.
    rewrite Hc, (IH H). reflexivity.
Qed.

Lemma strip_after_space (p : string) : Str.strip (String " " p) = Str.strip p.
Proof. reflexivity. Qed.

Lemma labels_of_line_space (s : string) :
  labels_of_line (String " " s) = labels_of_line s.
Proof.
  unfold labels_of_line. cbn [Str.split Ascii.eqb Bool.eqb].
  destruct (split_pieces "," s) as [_ N].
  destruct (Str.split "," s) as [|p ps]; [contradiction|].
  cbn [filter]. rewrite strip_after_space.
  destruct (Str.nonempty (Str.strip p)); cbn [map]; rewrite ?strip_after_space;
    reflexivity.
Qed.

Lemma labels_of_line_cons (x rest : string) :
  clean_label x ->
  labels_of_line (x ++ String "," rest) = x :: labels_of_line rest.
Proof.
  intros [Hne [Hs Hc]]. unfold labels_of_line.
  rewrite split_at_sep by exact Hc. cbn [filter]. rewrite Hs.
  destruct x; [contradiction|]. cbn [Str.nonempty map]. rewrite Hs. reflexivity.
Qed.

(** X20. Line 132 reads back a list of labels written with a comma and a
    space between them: splitting the joined line gives the labels, in their
    order, provided each is not empty, has no comma and no white space at
    either end. *)
Theorem labels_round_trip (labels : list string) :
  Forall clean_label labels ->
  labels_of_line (Str.join ", " labels) = labels.
Proof.
  induction 1 as [|x r Hx Hr IH]; [reflexivity|].
  destruct r as [|y r].
  - cbn [Str.join]. destruct Hx as [Hne [Hs Hc]]. unfold labels_of_line.
    rewrite split_without_sep by exact Hc. cbn [filter]. rewrite Hs.
    destruct x; [contradiction|]. cbn [Str.nonempty map]. rewrite Hs. reflexivity.
  - change (Str.join ", " (x :: y :: r))
      with (x ++ String "," (String " " (Str.join ", " (y :: r))))%string.
    rewrite labels_of_line_cons by exact Hx.
    rewrite labels_of_line_space, IH. reflexivity.
Qed.

(** X20 on two labels, one of them with a space inside. *)
Lemma labels_round_trip_witness :
  Forall clean_label ["bug"; "needs review"]%string /\
  labels_of_line "bug, needs review" = ["bug"; "needs review"]%string.
Proof.
  assert (H : Forall clean_label ["bug"; "needs review"]%string).
  { repeat constructor; discriminate. }
  split; [exact H|]. exact (labels_round_trip ["bug"; "needs review"]%string H).
Defined.

(** * The domain of [collect_diffs] *)

(** X11. [collect_diffs] returns an aggregate exactly when every report
    that can be read has the expected shape and, if there is a report file,
    the directory [out] exists; otherwise it raises. *)
Theorem collect_diffs_returns_exactly_on_shaped_reports
  (report_dir : string) (w : world) :
  ((exists agg w', collect_diffs report_dir w = (Ret agg, w')) <->
   (reports_shaped w report_dir /\
    (glob_json w report_dir <> [] -> out_dir w = true))) /\
  ((exists e w', collect_diffs report_dir w = (Raise e, w')) <->
   ~ (reports_shaped w report_dir /\
      (glob_json w report_dir <> [] -> out_dir w = true))).
Proof.
  pose proof (collect_diffs_returns_iff report_dir w) as I.
  split; [exact I|]. split.
  - intros [e [w' H]] S. apply I in S as [agg [w'' H']]. congruence.
  - intros N. destruct (collect_diffs report_dir w) as [[agg|e] w'] eqn:H.
    + exfalso. apply N, I. exists agg, w'. reflexivity.
    + exists e, w'. reflexivity.
Qed.

(** * Instances of the further properties *)

(** X1 on scenario 3. *)
Lemma aggregate_is_specified_witness :
  collect_diffs "reports" scenario_3
  = (Ret scenario_3_aggregate, snd (collect_diffs "reports" scenario_3)) /\
  map count (pages scenario_3_aggregate) = [1; 1] /\
  scenario_3_aggregate
  = {| pages := map (fun k =>
                       {| page := k;
                          count := List.length
                                     (labelled k (failed_items_in scenario_3 "reports"));
                          samples := firstn 5
                                       (map fileName
                                            (named (labelled k
                                               (failed_items_in scenario_3 "reports")))) |})
                    (first_occurrences
                       (map label (failed_items_in scenario_3 "reports")));
       totalFailed := List.length (failed_items_in scenario_3 "reports") |}.
Proof.
  split; [reflexivity|]. split; [reflexivity|].
  apply (aggregate_is_specified "reports" scenario_3
           (snd (collect_diffs "reports" scenario_3)) scenario_3_aggregate).
  reflexivity.
Defined.

(** X2 on scenario 3. *)
Lemma every_page_has_a_failure_witness :
  collect_diffs "reports" scenario_3
  = (Ret scenario_3_aggregate, snd (collect_diffs "reports" scenario_3)) /\
  Forall (fun ps => 1 <= count ps /\ List.length (samples ps) <= count ps)
         (pages scenario_3_aggregate) /\
  List.length (pages scenario_3_aggregate) <= totalFailed scenario_3_aggregate.
Proof.
  split; [reflexivity|].
  apply (every_page_has_a_failure "reports" scenario_3
           (snd (collect_diffs "reports" scenario_3)) scenario_3_aggregate).
  reflexivity.
Defined.

(** X3 on scenario 3. *)
Lemma pages_partition_the_labels_witness :
  collect_diffs "reports" scenario_3
  = (Ret scenario_3_aggregate, snd (collect_diffs "reports" scenario_3)) /\
  distinct (map page (pages scenario_3_aggregate)).
Proof.
  split; [reflexivity|].
  apply (pages_partition_the_labels "reports" scenario_3
           (snd (collect_diffs "reports" scenario_3)) scenario_3_aggregate).
  reflexivity.
Defined.

(** X4 on the two listings of scenario 3. *)
Lemma listing_order_is_irrelevant_witness :
  Permutation (glob_json scenario_3 "reports") (glob_json scenario_3_relisted "reports") /\
  fst (collect_diffs "reports" scenario_3)
  = fst (collect_diffs "reports" scenario_3_relisted).
Proof.
  assert (P : Permutation (glob_json scenario_3 "reports")
                          (glob_json scenario_3_relisted "reports")).
  { change (Permutation ["reports/b.json"; "reports/c.json"; "reports/a.json"]%string
                        ["reports/a.json"; "reports/b.json"; "reports/c.json"]%string).
    apply Permutation_sym. apply (Permutation_cons_app [_; _] []). reflexivity. }
  split; [exact P|].
  apply (listing_order_is_irrelevant "reports" scenario_3 scenario_3_relisted P);
    [|reflexivity].
  intros f Hin. vm_compute in Hin. destruct Hin as [<-|[<-|[<-|[]]]]; reflexivity.
Defined.

(** X6 on scenario 3. *)
Lemma one_warning_per_unreadable_report_witness :
  collect_diffs "reports" scenario_3
  = (Ret scenario_3_aggregate, snd (collect_diffs "reports" scenario_3)) /\
  stderr (snd (collect_diffs "reports" scenario_3))
  = rev (unreadable_warnings scenario_3 (sorted (glob_json scenario_3 "reports")))
    ++ stderr scenario_3.
Proof.
  split; [reflexivity|].
  apply (one_warning_per_unreadable_report "reports" scenario_3
           (snd (collect_diffs "reports" scenario_3)) scenario_3_aggregate).
  reflexivity.
Defined.

(** X8 on two items that differ by their url only. *)
Lemma summary_ignores_passthrough_fields_witness :
  group_by_page [{| label := JStr "home"; url := JStr "http://a/"; fileName := JStr "h.png";
                    mismatch := JNull; selectors := JNull |}] []
  = group_by_page [{| label := JStr "home"; url := JStr "http://b/"; fileName := JStr "h.png";
                      mismatch := JStr "0.10"; selectors := JArr [JStr "body"] |}] [].
Proof.
  apply (summary_ignores_passthrough_fields
           [{| label := JStr "home"; url := JStr "http://a/"; fileName := JStr "h.png";
               mismatch := JNull; selectors := JNull |}]
           [{| label := JStr "home"; url := JStr "http://b/"; fileName := JStr "h.png";
               mismatch := JStr "0.10"; selectors := JArr [JStr "body"] |}] []);
    reflexivity.
Defined.

(** X9 on a report that is a list. *)
Lemma failed_call_writes_nothing_witness :
  collect_diffs "reports" list_report = (Raise AttributeError, list_report) /\
  file_text list_report = file_text list_report /\
  (AttributeError = AttributeError \/ AttributeError = TypeError \/
   (AttributeError = OSError /\ out_dir list_report = false)).
Proof.
  split; [reflexivity|].
  apply (failed_call_writes_nothing "reports" list_report list_report AttributeError).
  reflexivity.
Defined.


(** X11 on scenario 3, which returns, and on the report that is a list. *)
Lemma collect_diffs_returns_exactly_on_shaped_reports_witness :
  (exists agg w', collect_diffs "reports" scenario_3 = (Ret agg, w')) /\
  ~ (reports_shaped list_report "reports" /\
     (glob_json list_report "reports" <> [] -> out_dir list_report = true)).
Proof.
  split.
  - apply (collect_diffs_returns_exactly_on_shaped_reports "reports" scenario_3).
    split; [|reflexivity].
    intros f data Hin Hl. vm_compute in Hin.
    destruct Hin as [<-|[<-|[<-|[]]]]; vm_compute in Hl;
      try discriminate; injection Hl as <-; reflexivity.
  - apply (collect_diffs_returns_exactly_on_shaped_reports "reports" list_report).
    exists AttributeError, list_report. reflexivity.
Defined.

(** X13 on scenario 3. *)
Lemma full_json_lists_every_report_witness :
  read_backstop_full_json "reports" scenario_3
  = (Ret (map (fun name => (name, load_json scenario_3 ("reports" ++ "/" ++ name)%string))
              (sorted ["b.json"; "c.json"; "a.json"]%string)), scenario_3).
Proof.
  apply (full_json_lists_every_report "reports" "reports"
           ["b.json"; "c.json"; "a.json"]%string scenario_3).
  - reflexivity.
  - repeat constructor.
Defined.

(** X14 on a site with one failure, BackstopJS ending with code 1. *)
Lemma main_success_witness :
  return_code site_with_failure (backstop_command "backstop.json")
              (Some "http://site.local"%string) = 1%Z /\
  exists w',
    main (fun _ : string => tt) (fun _ _ _ _ _ _ => "packet"%string)
         (demo_arguments "task.md") site_with_failure = (Ret tt, w') /\
    file_text w' DIFF_SUMMARY_PATH
    = Some (Json.dumps (json_of_aggregate one_home_failure)) /\
    file_text w' PACKET_PATH = Some "packet"%string /\
    commands w' = [backstop_command "backstop.json"].
Proof.
  split; [reflexivity|].
  destruct (main_success unit (fun _ : string => tt) (fun _ _ _ _ _ _ => "packet"%string)
              (demo_arguments "task.md") site_with_failure "Title: demo")
    as [w' [H1 [_ [H3 [H4 [H5 _]]]]]].
  - reflexivity.
  - reflexivity.
  - intros f data Hin Hl. vm_compute in Hin.
    destruct Hin as [<-|[]]. vm_compute in Hl. injection Hl as <-. reflexivity.
  - exists w'. split; [exact H1|]. split; [exact H3|]. split; [exact H4|exact H5].
Defined.

(** X15 on a site whose task file cannot be read. *)
Lemma main_stops_on_unreadable_task_witness :
  on_disk site_with_unreadable_task "task.md" = true /\
  read_text site_with_unreadable_task "task.md" = None /\
  exit_status (fst (main (fun _ : string => tt) (fun _ _ _ _ _ _ => "packet"%string)
                         (demo_arguments "task.md") site_with_unreadable_task)) = 1%Z.
Proof.
  split; [reflexivity|]. split; [reflexivity|].
  apply (main_stops_on_unreadable_task unit (fun _ : string => tt)
           (fun _ _ _ _ _ _ => "packet"%string)
           (demo_arguments "task.md") site_with_unreadable_task); reflexivity.
Defined.

(** X16 on a site whose report is a list. *)
Lemma main_stops_on_malformed_report_witness :
  ~ reports_shaped site_with_list_report DEFAULT_REPORT_DIR /\
  exit_status (fst (main (fun _ : string => tt) (fun _ _ _ _ _ _ => "packet"%string)
                         (demo_arguments "task.md") site_with_list_report)) = 1%Z /\
  file_text (snd (main (fun _ : string => tt) (fun _ _ _ _ _ _ => "packet"%string)
                       (demo_arguments "task.md") site_with_list_report))
  = file_text site_with_list_report.
Proof.
  assert (N : ~ reports_shaped site_with_list_report DEFAULT_REPORT_DIR).
  { intros S.
    specialize (S "backstop/backstop_data/json_report/a.json"%string (JArr [])
                  (or_introl eq_refl) eq_refl).
    discriminate. }
  split; [exact N|].
  destruct (main_stops_on_malformed_report unit (fun _ : string => tt)
              (fun _ _ _ _ _ _ => "packet"%string)
              (demo_arguments "task.md") site_with_list_report "Title: demo"
              eq_refl eq_refl N) as [H1 [H2 _]].
  split; [exact H1|exact H2].
Defined.
